(** * The Alberti Protocol SDK commit engine

    A shallow embedding of the commit engine of [src/index.js] (mining,
    signing, verification and payload validation) and of the two other
    copies of it that the repository carries
    ([src/unnamed/part_002], [src/unnamed/part_003]).

    Modelling decisions, all visible in the definitions below:
    - JavaScript values are the JSON data a commit is made of: [undefined],
      [null], booleans, numbers, strings, arrays and plain objects.  Objects
      are finite maps from property names to values; only the number of own
      keys and the lookups matter to this code, not the insertion order.
    - Numbers are integers (nonces, lengths, difficulties); strings are
      sequences of code units, one Rocq character per unit.
    - An exception is a result [Throw e]; [try]/[catch] is [try_catch].
    - The unbounded [do ... while] of the miner takes a fuel argument and
      answers [None] when the fuel runs out before the loop exits.
    - [console.log] and [console.error] are not modelled.
    - The clock reading [new Date().toISOString()] is an argument. *)

From Stdlib Require Import ZArith String Ascii List Bool Lia.
From stdpp Require Import base option list gmap strings pretty.

#[local] Set Warnings "-register-all".
#[local] Open Scope string_scope.
#[local] Open Scope Z_scope.

(** ** JavaScript values and the operations the code applies to them *)

Module JS.

Inductive exn : Type :=
  | TypeError
  | RangeError
  | Error (msg : string).

Inductive result (A : Type) : Type :=
  | Ok (a : A)
  | Throw (e : exn).
Arguments Ok {A} a.
Arguments Throw {A} e.

#[export] Instance result_ret : MRet result := @Ok.
#[export] Instance result_bind : MBind result :=
  λ A B f c, match c with Ok a => f a | Throw e => Throw e end.

(** [try { body } catch (error) { handler }] *)
Definition try_catch {A} (body : result A) (handler : exn → result A) : result A :=
  match body with
  | Ok a => Ok a
  | Throw e => handler e
  end.

(** [a && b] on boolean operands: [b] is not evaluated when [a] is false. *)
Definition and_then (a b : result bool) : result bool :=
  x ← a; if x : bool then b else Ok false.

(** [a || b] on boolean operands. *)
Definition or_else (a b : result bool) : result bool :=
  x ← a; if x : bool then Ok true else b.

Inductive value : Type :=
  | VUndefined
  | VNull
  | VBool (b : bool)
  | VNum (n : Z)
  | VStr (s : string)
  | VArr (l : list value)
  | VObj (m : gmap string value).

(** [typeof v] *)
Definition typeof (v : value) : string :=
  match v with
  | VUndefined => "undefined"
  | VNull => "object"
  | VBool _ => "boolean"
  | VNum _ => "number"
  | VStr _ => "string"
  | VArr _ => "object"
  | VObj _ => "object"
  end.

(** ToBoolean, as applied by [if (v)]. *)
Definition truthy (v : value) : bool :=
  match v with
  | VUndefined => false
  | VNull => false
  | VBool b => b
  | VNum n => negb (n =? 0)
  | VStr s => negb (String.eqb s "")
  | VArr _ => true
  | VObj _ => true
  end.

(** [s.length] of a string, as a number. *)
Definition strlen (s : string) : Z := Z.of_nat (String.length s).

(** ToString, as applied by a template literal [`${v}`].  A plain object
    prints as ["[object Object]"] through [Object.prototype.toString]; an own
    property named [toString] shadows that method and, not being callable,
    makes the conversion a TypeError.  An array prints its elements joined by
    commas, [null] and [undefined] elements as the empty string. *)
Fixpoint to_string (v : value) : result string :=
  match v with
  | VUndefined => Ok "undefined"
  | VNull => Ok "null"
  | VBool true => Ok "true"
  | VBool false => Ok "false"
  | VNum n => Ok (pretty n)
  | VStr s => Ok s
  | VArr l =>
      (fix join (l : list value) : result string :=
         match l with
         | [] => Ok ""
         | x :: rest =>
             s ← match x with
                 | VUndefined | VNull => Ok ""
                 | _ => to_string x
                 end;
             match rest with
             | [] => Ok s
             | _ => r ← join rest; Ok (s ++ "," ++ r)
             end
         end) l
  | VObj m =>
      if decide ("toString" ∈ dom m) then Throw TypeError
      else Ok "[object Object]"
  end.

(** The array index a property name denotes, if it is one below [n]. *)
Definition array_index (p : string) (n : nat) : option nat :=
  List.find (λ i, String.eqb (pretty i) p) (seq 0 n).

(** Property read [v.p], for the data properties this code reads ([data],
    [type], [hashtags], [length], ...): none of them is defined by a built-in
    prototype, so a plain object answers with its own property or
    [undefined]. *)
Definition get (v : value) (p : string) : result value :=
  match v with
  | VUndefined | VNull => Throw TypeError
  | VBool _ | VNum _ => Ok VUndefined
  | VStr s =>
      if String.eqb p "length" then Ok (VNum (strlen s))
      else match array_index p (String.length s) with
           | Some i => Ok (VStr (substring i 1 s))
           | None => Ok VUndefined
           end
  | VArr l =>
      if String.eqb p "length" then Ok (VNum (Z.of_nat (length l)))
      else match array_index p (length l) with
           | Some i => Ok (nth i l VUndefined)
           | None => Ok VUndefined
           end
  | VObj m => Ok (default VUndefined (m !! p))
  end.

(** The call [v.hasOwnProperty(p)].  On a plain object an own property named
    [hasOwnProperty] shadows the method and is not callable. *)
Definition hasOwnProperty (v : value) (p : string) : result bool :=
  match v with
  | VUndefined | VNull => Throw TypeError
  | VBool _ | VNum _ => Ok false
  | VStr s =>
      Ok (String.eqb p "length" || bool_decide (is_Some (array_index p (String.length s))))
  | VArr l =>
      Ok (String.eqb p "length" || bool_decide (is_Some (array_index p (length l))))
  | VObj m =>
      if decide ("hasOwnProperty" ∈ dom m) then Throw TypeError
      else Ok (bool_decide (p ∈ dom m))
  end.

(** [Object.keys(v).length] *)
Definition keys_length (v : value) : result Z :=
  match v with
  | VUndefined | VNull => Throw TypeError
  | VBool _ | VNum _ => Ok 0
  | VStr s => Ok (strlen s)
  | VArr l => Ok (Z.of_nat (length l))
  | VObj m => Ok (Z.of_nat (size m))
  end.

(** The call [v.forEach(callback)].  Only arrays have the method.  The
    callback may update the variables it closes over (the state [S]); what it
    returns is discarded. *)
Fixpoint forEach_list {S} (callback : value → S → result (value * S))
    (l : list value) (st : S) : result S :=
  match l with
  | [] => Ok st
  | x :: rest =>
      r ← callback x st;
      forEach_list callback rest r.2
  end.

Definition forEach {S} (v : value) (callback : value → S → result (value * S))
    (st : S) : result S :=
  match v with
  | VUndefined | VNull => Throw TypeError
  | VArr l => forEach_list callback l st
  | _ => Throw TypeError
  end.

(** The call [v.every(predicate)]: stops at the first element the predicate
    rejects. *)
Fixpoint every_list (predicate : value → result bool) (l : list value) : result bool :=
  match l with
  | [] => Ok true
  | x :: rest =>
      b ← predicate x;
      if b : bool then every_list predicate rest else Ok false
  end.

Definition every (v : value) (predicate : value → result bool) : result bool :=
  match v with
  | VUndefined | VNull => Throw TypeError
  | VArr l => every_list predicate l
  | _ => Throw TypeError
  end.

(** [s.startsWith(p)] *)
Fixpoint startsWith (s p : string) {struct p} : bool :=
  match p with
  | EmptyString => true
  | String c p' =>
      match s with
      | EmptyString => false
      | String d s' => Ascii.eqb c d && startsWith s' p'
      end
  end.

(** [s.repeat(n)]: a RangeError for a negative count. *)
Definition repeat (s : string) (n : Z) : result string :=
  if n <? 0 then Throw RangeError
  else Ok (String.concat "" (List.repeat s (Z.to_nat n))).

(** The character class [[a-zA-Z0-9]]. *)
Definition alnum_char (c : ascii) : bool :=
  let n := nat_of_ascii c in
  ((97 <=? n) && (n <=? 122) || (65 <=? n) && (n <=? 90) || (48 <=? n) && (n <=? 57))%nat.

(** Whether the whole string matches [/^[a-zA-Z0-9]*$/]. *)
Fixpoint alnum (s : string) : bool :=
  match s with
  | EmptyString => true
  | String c s' => alnum_char c && alnum s'
  end.

(** [signer === v] for a string [signer]. *)
Definition strict_eq_string (signer : string) (v : value) : bool :=
  match v with
  | VStr s => String.eqb signer s
  | _ => false
  end.

End JS.
Export JS.

(** ** What the engine takes from outside *)

(** The comparison [s > n] of a string with a number converts the string with
    StringToNumber, which is arithmetic on IEEE doubles; it stays a parameter.
    The code reaches it only when a [length] property holds a non-number. *)
Class Runtime : Type := {
  string_gt : string → Z → bool
}.

(** The identity and cipher provider: the digest, signing, public-key
    recovery and key derivation.  In [src/index.js] and [part_002] these are
    [EthCrypto.hash.keccak256], [EthCrypto.sign], [EthCrypto.recoverPublicKey]
    and [EthCrypto.publicKeyByPrivateKey]; in [part_003] they are built from
    [CryptoJS.SHA256] and the [elliptic] curve object.  Signing, recovery and
    derivation can throw on malformed arguments; recovery takes the
    [signature] field of a commit as it comes. *)
Class Provider : Type := {
  provider_hash : string → string;
  provider_sign : string → string → result string;
  provider_recover : value → string → result string;
  provider_public_key : string → result string
}.

(** [v > n] for a number literal [n]: numbers compare as such, [undefined] is
    NaN, [null] is 0, booleans are 0 and 1, an object or array is first
    converted to a string. *)
Definition gt `{Runtime} (v : value) (n : Z) : result bool :=
  match v with
  | VUndefined => Ok false
  | VNull => Ok (0 >? n)
  | VBool b => Ok ((if b then 1 else 0) >? n)
  | VNum k => Ok (k >? n)
  | VStr s => Ok (string_gt s n)
  | VArr _ | VObj _ => s ← to_string v; Ok (string_gt s n)
  end.

(** ** [src/index.js] *)

Module Index.
Section Engine.
Context `{Runtime} `{Provider}.

(** index.js:36 *)
Definition difficultyverify (difficulty : Z) (hash : string) : result bool :=
  zeros ← repeat "0" difficulty;
  Ok (startsWith hash ("0x" ++ zeros)).

(** index.js:45 *)
Definition hashMessage (message : string) : string :=
  provider_hash message.

(** index.js:55 *)
Definition signMessage (privateKey message : string) : result string :=
  provider_sign privateKey (hashMessage message).

(** index.js:65 *)
Definition recoverPublicKey (signature : value) (message : string) : result string :=
  provider_recover signature (hashMessage message).

(** index.js:26 *)
Definition privateKeyToPublicKey (privateKey : string) : result string :=
  provider_public_key privateKey.

(** index.js:134; the defaults [[]], [[]] and [null] are the caller's to pass. *)
Definition postTemplate (content hashtags attachments parentID : value) : value :=
  VObj (<["parent" := parentID]> (<["content" := content]>
       (<["hashtags" := hashtags]> (<["attachments" := attachments]> ∅)))).

(** index.js:159 *)
Definition metaTemplate (name about image website followed hashtags bookmarks : value) : value :=
  VObj (<["followed" := followed]> (<["hashtags" := hashtags]>
       (<["bookmarks" := bookmarks]> (<["name" := name]> (<["about" := about]>
       (<["image" := image]> (<["website" := website]> ∅))))))).

(** [messageHash === undefined]: a digest is a string, never [undefined]. *)
Definition is_undefined (messageHash : string) : bool := false.

(** One round of the loop body of index.js:194-201, entered with the nonce
    already incremented: the digest, and whether the loop goes round again. *)
Definition attempt (data : value) (commitAt : string) (difficulty nonce : Z)
    : result (string * bool) :=
  sdata ← to_string data;
  let hashString := sdata ++ commitAt ++ pretty nonce in
  let messageHash := hashMessage hashString in
  ok ← difficultyverify difficulty messageHash;
  Ok (messageHash, negb ok || is_undefined messageHash).

(** The [do ... while] of index.js:194-201, from the value [nonce] has before
    the loop body increments it. *)
Fixpoint mine (fuel : nat) (data : value) (commitAt : string) (difficulty nonce : Z)
    : option (result (Z * string)) :=
  match fuel with
  | O => None
  | S fuel' =>
      let nonce := nonce + 1 in
      match attempt data commitAt difficulty nonce with
      | Throw e => Some (Throw e)
      | Ok (messageHash, true) => mine fuel' data commitAt difficulty nonce
      | Ok (messageHash, false) => Some (Ok (nonce, messageHash))
      end
  end.

(** The object literal [{ commitAt, data, publicKey, signature, type, nonce }]. *)
Definition commit_object (commitAt data publicKey signature type nonce : value) : value :=
  VObj (<["commitAt" := commitAt]> (<["data" := data]> (<["publicKey" := publicKey]>
       (<["signature" := signature]> (<["type" := type]> (<["nonce" := nonce]> ∅)))))).

(** index.js:187; [now] is the reading of [new Date().toISOString()]. *)
Definition createCommit (fuel : nat) (now : string)
    (privateKey : string) (data type : value) (difficulty : Z)
    : option (result value) :=
  let commitAt := now in
  match mine fuel data commitAt difficulty 0 with
  | None => None
  | Some mined =>
      Some (try_catch
        ('(nonce, messageHash) ← mined;
         signature ← signMessage privateKey messageHash;
         publicKey ← provider_public_key privateKey;
         Ok (commit_object (VStr commitAt) data (VStr publicKey) (VStr signature)
               type (VNum nonce)))
        (λ error, Throw (Error "Failed to create commit.")))
  end.

(** The callback of index.js:286-298.  Its [return false] leaves the
    callback, not [checkdatastructure]. *)
Definition hashtag_callback (element : value) (st : unit) : result (value * unit) :=
  match element with
  | VStr s =>
      if strlen s >? 32 then Ok (VBool false, st)
      else if negb (alnum s) then Ok (VBool false, st)
      else Ok (VUndefined, st)
  | _ => Ok (VBool false, st)
  end.

(** The callback of index.js:304-316 over the variables [allgood] and
    [allgoodx] it closes over. *)
Definition attachment_callback (element : value) (st : bool * bool)
    : result (value * (bool * bool)) :=
  let '(allgood, allgoodx) := st in
  has_type ← hasOwnProperty element "type";
  let allgood := if has_type : bool then true else allgood in
  has_cid ← hasOwnProperty element "cid";
  let allgoodx := if has_cid : bool then negb allgoodx else allgoodx in
  has_url ← hasOwnProperty element "url";
  let allgoodx := if has_url : bool then negb allgoodx else allgoodx in
  Ok (VUndefined, (allgood, allgoodx)).

(** index.js:279-326, the body of [if ((type = "post"))]. *)
Definition post_branch (data : value) : result bool :=
  fields ← and_then (hasOwnProperty data "parent")
           (and_then (hasOwnProperty data "content")
           (and_then (hasOwnProperty data "hashtags")
                     (hasOwnProperty data "attachments")));
  if fields : bool then
    hashtags ← get data "hashtags";
    len ← get hashtags "length";
    some ← gt len 0;
    _ ← (if some : bool then forEach hashtags hashtag_callback tt else Ok tt);
    attachments ← get data "attachments";
    len ← get attachments "length";
    some ← gt len 0;
    if some : bool then
      st ← forEach attachments attachment_callback (false, false);
      let '(allgood, allgoodx) := st in
      if Bool.eqb allgood false || Bool.eqb allgoodx false then Ok false
      else Ok true
    else Ok true
  else Ok false.

(** index.js:330-356, the body of [if ((type = "meta"))]; it reads
    [data.hashTags]. *)
Definition meta_branch (data : value) : result bool :=
  fields ← and_then (hasOwnProperty data "followed")
           (and_then (hasOwnProperty data "hashtags")
           (and_then (hasOwnProperty data "bookmarks")
           (and_then (hasOwnProperty data "name")
           (and_then (hasOwnProperty data "about")
           (and_then (hasOwnProperty data "image")
                     (hasOwnProperty data "website"))))));
  if fields : bool then
    hashTags ← get data "hashTags";
    _ ← forEach hashTags hashtag_callback tt;
    Ok true
  else Ok false.

(** index.js:360-364, the body of [if ((type = "message"))]. *)
Definition message_branch (data : value) : result bool :=
  fields ← and_then (hasOwnProperty data "receiver") (hasOwnProperty data "message");
  if fields : bool then Ok true else Ok false.

(** index.js:277.  Each condition is the assignment [(type = "...")], whose
    value is the string assigned. *)
Definition checkdatastructure (data type : value) : result bool :=
  let type := VStr "post" in
  if truthy type then post_branch data
  else
    let type := VStr "meta" in
    if truthy type then meta_branch data
    else
      let type := VStr "message" in
      if truthy type then message_branch data
      else Ok false.

(** index.js:247 *)
Definition verifyObject (dataObject : value) : result bool :=
  n ← keys_length dataObject;
  if negb (n =? 6) then Ok false
  else
    data ← get dataObject "data";
    type ← get dataObject "type";
    structure ← checkdatastructure data type;
    if Bool.eqb structure false then Ok false
    else
      all ← and_then (hasOwnProperty dataObject "commitAt")
            (and_then (hasOwnProperty dataObject "data")
            (and_then (hasOwnProperty dataObject "publicKey")
            (and_then (hasOwnProperty dataObject "signature")
            (and_then (hasOwnProperty dataObject "type")
                      (hasOwnProperty dataObject "nonce")))));
      if all : bool then Ok true else Ok false.

(** The digest both [createCommit] and [verifyCommit] compute from the
    template literal [`${data}${commitAt}${nonce}`]. *)
Definition commit_digest (data commitAt nonce : value) : result string :=
  sdata ← to_string data;
  scommitAt ← to_string commitAt;
  snonce ← to_string nonce;
  let hashString := sdata ++ scommitAt ++ snonce in
  Ok (hashMessage hashString).

(** index.js:219; [verifyObject] is called before the [try]. *)
Definition verifyCommit (commit : value) (difficulty : Z) : result bool :=
  valid ← verifyObject commit;
  if negb valid then Ok false
  else
    try_catch
      (data ← get commit "data";
       commitAt ← get commit "commitAt";
       nonce ← get commit "nonce";
       hashedData ← commit_digest data commitAt nonce;
       ok ← difficultyverify difficulty hashedData;
       if negb ok then Ok false
       else
         signature ← get commit "signature";
         signer ← recoverPublicKey signature hashedData;
         publicKey ← get commit "publicKey";
         Ok (strict_eq_string signer publicKey))
      (λ error, Ok false).

End Engine.
End Index.

(** ** [src/unnamed/part_002]: the copy without payload validation *)

Module Part002.
Section Engine.
Context `{Runtime} `{Provider}.

(** part_002:3, the text of index.js:36 *)
Definition difficultyverify (difficulty : Z) (hash : string) : result bool :=
  zeros ← repeat "0" difficulty;
  Ok (startsWith hash ("0x" ++ zeros)).

(** part_002:7 *)
Definition hashMessage (message : string) : string :=
  provider_hash message.

(** part_002:15 *)
Definition recoverPublicKey (signature : value) (message : string) : result string :=
  provider_recover signature (hashMessage message).

(** part_002:123: the whole body is inside the [try]. *)
Definition verifyCommit (commit : value) (difficulty : Z) : result bool :=
  try_catch
    (data ← get commit "data";
     sdata ← to_string data;
     commitAt ← get commit "commitAt";
     scommitAt ← to_string commitAt;
     nonce ← get commit "nonce";
     snonce ← to_string nonce;
     let hashString := sdata ++ scommitAt ++ snonce in
     let hashedData := hashMessage hashString in
     ok ← difficultyverify difficulty hashedData;
     if negb ok then Ok false
     else
       signature ← get commit "signature";
       signer ← recoverPublicKey signature hashedData;
       publicKey ← get commit "publicKey";
       Ok (strict_eq_string signer publicKey))
    (λ error, Ok false).

End Engine.
End Part002.

(** ** [src/unnamed/part_003]: the copy with equality tests and [every] *)

Module Part003.
Section Engine.
Context `{Runtime} `{Provider}.

(** part_003:33: no ["0x"] in front of the zeros. *)
Definition difficultyverify (difficulty : Z) (hash : string) : result bool :=
  zeros ← repeat "0" difficulty;
  Ok (startsWith hash zeros).

(** part_003:42 *)
Definition hashMessage (message : string) : string :=
  provider_hash message.

(** part_003:52 *)
Definition signMessage (privateKey message : string) : result string :=
  provider_sign privateKey (hashMessage message).

(** part_003:65 *)
Definition recoverPublicKey (signature : value) (message : string) : result string :=
  provider_recover signature (hashMessage message).

(** part_003:22 *)
Definition privateKeyToPublicKey (privateKey : string) : result string :=
  provider_public_key privateKey.

Definition is_undefined (messageHash : string) : bool := false.

(** One round of the loop body of part_003:165-172. *)
Definition attempt (data : value) (commitAt : string) (difficulty nonce : Z)
    : result (string * bool) :=
  sdata ← to_string data;
  let hashString := sdata ++ commitAt ++ pretty nonce in
  let messageHash := hashMessage hashString in
  ok ← difficultyverify difficulty messageHash;
  Ok (messageHash, negb ok || is_undefined messageHash).

Fixpoint mine (fuel : nat) (data : value) (commitAt : string) (difficulty nonce : Z)
    : option (result (Z * string)) :=
  match fuel with
  | O => None
  | S fuel' =>
      let nonce := nonce + 1 in
      match attempt data commitAt difficulty nonce with
      | Throw e => Some (Throw e)
      | Ok (messageHash, true) => mine fuel' data commitAt difficulty nonce
      | Ok (messageHash, false) => Some (Ok (nonce, messageHash))
      end
  end.

Definition commit_object (commitAt data publicKey signature type nonce : value) : value :=
  VObj (<["commitAt" := commitAt]> (<["data" := data]> (<["publicKey" := publicKey]>
       (<["signature" := signature]> (<["type" := type]> (<["nonce" := nonce]> ∅)))))).

(** part_003:158 *)
Definition createCommit (fuel : nat) (now : string)
    (privateKey : string) (data type : value) (difficulty : Z)
    : option (result value) :=
  let commitAt := now in
  match mine fuel data commitAt difficulty 0 with
  | None => None
  | Some mined =>
      Some (try_catch
        ('(nonce, messageHash) ← mined;
         signature ← signMessage privateKey messageHash;
         publicKey ← privateKeyToPublicKey privateKey;
         Ok (commit_object (VStr commitAt) data (VStr publicKey) (VStr signature)
               type (VNum nonce)))
        (λ error, Throw (Error "Failed to create commit.")))
  end.

(** The predicate given to [data.hashtags.every], part_003:249-254. *)
Definition hashtag_ok (element : value) : result bool :=
  match element with
  | VStr s => Ok ((strlen s <=? 32) && alnum s)
  | _ => Ok false
  end.

(** The predicate given to [data.attachments.every], part_003:255-262. *)
Definition attachment_ok (element : value) : result bool :=
  and_then (hasOwnProperty element "type")
    (and_then
       (type ← get element "type";
        Ok (strict_eq_string "image" type || strict_eq_string "video" type
            || strict_eq_string "others" type))
       (or_else (hasOwnProperty element "cid") (hasOwnProperty element "url"))).

(** part_003:242 *)
Definition checkDataStructure (data type : value) : result bool :=
  if strict_eq_string "post" type then
    and_then (hasOwnProperty data "parent")
    (and_then (hasOwnProperty data "content")
    (and_then (hasOwnProperty data "hashtags")
    (and_then (hasOwnProperty data "attachments")
    (and_then (hashtags ← get data "hashtags"; every hashtags hashtag_ok)
              (attachments ← get data "attachments"; every attachments attachment_ok)))))
  else if strict_eq_string "meta" type then
    and_then (hasOwnProperty data "followed")
    (and_then (hasOwnProperty data "hashtags")
    (and_then (hasOwnProperty data "bookmarks")
    (and_then (hasOwnProperty data "name")
    (and_then (hasOwnProperty data "about")
    (and_then (hasOwnProperty data "image")
    (and_then (hasOwnProperty data "website")
              (hashtags ← get data "hashtags"; every hashtags hashtag_ok)))))))
  else if strict_eq_string "message" type then
    and_then (hasOwnProperty data "receiver") (hasOwnProperty data "message")
  else Ok false.

Definition requiredProperties : list string :=
  ["commitAt"; "data"; "publicKey"; "signature"; "type"; "nonce"].

(** The [for] loop of part_003:227-231: whether it runs to its end without
    reaching [return false]. *)
Fixpoint has_required (dataObject : value) (props : list string) : result bool :=
  match props with
  | [] => Ok true
  | prop :: rest =>
      present ← hasOwnProperty dataObject prop;
      if negb present then Ok false else has_required dataObject rest
  end.

(** part_003:217 *)
Definition verifyObject (dataObject : value) : result bool :=
  complete ← has_required dataObject requiredProperties;
  if complete : bool then
    data ← get dataObject "data";
    type ← get dataObject "type";
    checkDataStructure data type
  else Ok false.

(** part_003:190 *)
Definition verifyCommit (commit : value) (difficulty : Z) : result bool :=
  valid ← verifyObject commit;
  if negb valid then Ok false
  else
    try_catch
      (data ← get commit "data";
       sdata ← to_string data;
       commitAt ← get commit "commitAt";
       scommitAt ← to_string commitAt;
       nonce ← get commit "nonce";
       snonce ← to_string nonce;
       let hashString := sdata ++ scommitAt ++ snonce in
       let hashedData := hashMessage hashString in
       ok ← difficultyverify difficulty hashedData;
       if negb ok then Ok false
       else
         signature ← get commit "signature";
         signer ← recoverPublicKey signature hashedData;
         publicKey ← get commit "publicKey";
         Ok (strict_eq_string signer publicKey))
      (λ error, Ok false).

End Engine.
End Part003.

(** ** A small provider to run the definitions on

    The digest is ["0x"] followed by the message reversed, so that the nonce's
    last digits lead the digest; a signature is the signed digest followed by
    the private key. *)

Module Sample.

#[export] Instance runtime : Runtime := {|
  string_gt := λ _ _, false
|}.

Definition recover (signature : value) (hash : string) : result string :=
  match signature with
  | VStr s =>
      if startsWith s hash
      then Ok ("pk:" ++ substring (String.length hash)
                          (String.length s - String.length hash) s)
      else Throw (Error "recovery failed")
  | _ => Throw TypeError
  end.

#[export] Instance provider : Provider := {|
  provider_hash := λ message, "0x" ++ String.rev message;
  provider_sign := λ privateKey hash,
    if String.eqb privateKey "" then Throw (Error "bad key")
    else Ok (hash ++ privateKey);
  provider_recover := recover;
  provider_public_key := λ privateKey,
    if String.eqb privateKey "" then Throw (Error "bad key")
    else Ok ("pk:" ++ privateKey)
|}.

Definition now : string := "2024-01-01T00:00:00.000Z".

(** The post of the repository's example script, part_000:15. *)
Definition hello_post : value :=
  Index.postTemplate (VStr "Hello Boy") (VArr [VStr "news"]) (VArr []) VNull.

Definition tampered_post : value :=
  Index.postTemplate (VStr "Goodbye") (VArr [VStr "news"]) (VArr []) VNull.

Definition envelope : value :=
  VObj (<["receiver" := VStr "pk:bob"]> (<["message" := VStr "blob"]> ∅)).

(** An attachment object [{ type, [field]: locator }]. *)
Definition attachment (type : string) (field locator : string) : value :=
  VObj (<["type" := VStr type]> (<[field := VStr locator]> ∅)).

(** A post whose only hashtag has a space and an exclamation mark. *)
Definition bad_hashtag_post : value :=
  Index.postTemplate (VStr "x") (VArr [VStr "bad tag!"]) (VArr []) VNull.

(** A post with two well-formed attachments, one by [cid] and one by [url]. *)
Definition two_attachments_post : value :=
  Index.postTemplate (VStr "x") (VArr [])
    (VArr [attachment "image" "cid" "Qm1"; attachment "image" "url" "https://x/y.png"])
    VNull.

(** A post whose attachment declares the type ["img"], as the README does. *)
Definition img_attachment_post : value :=
  Index.postTemplate (VStr "x") (VArr []) (VArr [attachment "img" "cid" "Qm1"]) VNull.

(** A commit whose [data] is [null]. *)
Definition null_data_commit : value :=
  Index.commit_object (VStr now) VNull (VStr "pk:alice") (VStr "sig") (VStr "post") (VNum 1).

(** Six fields, with [extra] where [data] should be. *)
Definition extra_field_commit : value :=
  VObj (<["commitAt" := VStr now]> (<["extra" := VNum 1]> (<["publicKey" := VStr "pk:alice"]>
       (<["signature" := VStr "sig"]> (<["type" := VStr "post"]> (<["nonce" := VNum 1]> ∅)))))).

End Sample.

(** ** Leading zeros *)

(** The string of [d] characters ['0']. *)
Definition zeros (d : nat) : string := String.concat "" (List.repeat "0" d).

(** The first [d] characters of [hex] exist and are ['0']. *)
Definition leading_zeros (d : nat) (hex : string) : Prop :=
  ∀ i, (i < d)%nat → String.get i hex = Some "0"%char.

(** Where a provider's digests are written with the ["0x"] prefix, as
    [EthCrypto.hash.keccak256] writes them. *)
Definition hex_prefixed `{Provider} : Prop :=
  ∀ message, startsWith (provider_hash message) "0x" = true.

(** The digest the miner of [src/index.js] tests for a nonce, given the
    string the payload converts to. *)
Definition nonce_digest `{Provider} (sdata commitAt : string) (nonce : Z) : string :=
  Index.hashMessage (sdata ++ commitAt ++ pretty nonce).

(** A provider whose recovery returns the public key of the private key that
    signed. *)
Definition provider_sound `{Provider} : Prop :=
  ∀ privateKey hash signature publicKey,
    provider_sign privateKey hash = Ok signature →
    provider_public_key privateKey = Ok publicKey →
    provider_recover (VStr signature) hash = Ok publicKey.

(** The commit with one field replaced, [{ ...commit, [field]: v }]. *)
Definition set_field (commit : value) (field : string) (v : value) : value :=
  match commit with
  | VObj m => VObj (<[field := v]> m)
  | _ => commit
  end.

(** A hashtag as the specification wants it: a string of at most 32
    characters, all of them letters or digits. *)
Definition well_formed_hashtag (v : value) : bool :=
  match v with
  | VStr s => (strlen s <=? 32) && alnum s
  | _ => false
  end.

(** An attachment as the specification wants it: a [type] among [image],
    [video] and [others], and a [cid] or a [url]. *)
Definition well_formed_attachment (v : value) : bool :=
  match v with
  | VObj m =>
      match m !! "type" with
      | Some (VStr t) => String.eqb t "image" || String.eqb t "video" || String.eqb t "others"
      | _ => false
      end
      && (bool_decide ("cid" ∈ dom m) || bool_decide ("url" ∈ dom m))
  | _ => false
  end.

(** Whether a value is an object with the own property [p]. *)
Definition has_field (v : value) (p : string) : bool :=
  match v with
  | VObj m => bool_decide (p ∈ dom m)
  | _ => false
  end.

(** How many [cid] and [url] properties the elements of an array have
    between them. *)
Fixpoint locator_count (l : list value) : nat :=
  match l with
  | [] => 0
  | x :: rest =>
      ((if has_field x "cid" then 1 else 0) + (if has_field x "url" then 1 else 0)
       + locator_count rest)%nat
  end.

(** A plain object that does not shadow [hasOwnProperty]. *)
Definition plain_object (v : value) : Prop :=
  ∃ m : gmap string value, v = VObj m ∧ "hasOwnProperty" ∉ dom m.

(** The names of the six fields of a commit. *)
Definition commit_fields : gset string :=
  {["commitAt"; "data"; "publicKey"; "signature"; "type"; "nonce"]}.

(** ** [src/index.js]: signed and encrypted messages *)

(** What [encodeMessage] and [decodeMessage] take from outside: the
    asymmetric cipher of [eth-crypto] ([EthCrypto.encryptWithPublicKey], which
    draws a fresh key and vector at each call, here the argument [entropy];
    [EthCrypto.cipher.stringify] and [parse]; [EthCrypto.decryptWithPrivateKey]),
    [JSON.stringify] and [JSON.parse], and what [EthCrypto.hash.keccak256]
    does with an argument that is not a string. *)
Class Cipher : Type := {
  encrypted : Type;
  encryptWithPublicKey : string → string → string → result encrypted;
  cipher_stringify : encrypted → result string;
  cipher_parse : string → result encrypted;
  decryptWithPrivateKey : string → encrypted → result string;
  JSON_stringify : value → result string;
  JSON_parse : string → result value;
  keccak256_other : value → result string
}.

Module Messages.
Section Engine.
Context `{Provider} `{Cipher}.

(** index.js:45, on a message that [JSON.parse] produced and that need not be
    a string. *)
Definition hashMessage (message : value) : result string :=
  match message with
  | VStr s => Ok (Index.hashMessage s)
  | _ => keccak256_other message
  end.

(** index.js:65, on such a message. *)
Definition recoverPublicKey (signature message : value) : result string :=
  hash ← hashMessage message;
  provider_recover signature hash.

(** The object literal [{ message, signature }] of index.js:81. *)
Definition signed_payload (message signature : value) : value :=
  VObj (<["message" := message]> (<["signature" := signature]> ∅)).

(** index.js:76; the promise is its outcome, a rejection is [Throw]. *)
Definition encodeMessage (entropy : string)
    (message senderPrivateKey receiverPublicKey : string) : result value :=
  try_catch
    (signature ← Index.signMessage senderPrivateKey message;
     text ← JSON_stringify (signed_payload (VStr message) (VStr signature));
     encryptedMessage ← encryptWithPublicKey entropy receiverPublicKey text;
     encryptedString ← cipher_stringify encryptedMessage;
     Ok (VObj (<["receiver" := VStr receiverPublicKey]>
              (<["message" := VStr encryptedString]> ∅))))
    (λ error, Throw (Error "Failed to encode message.")).

(** index.js:101 *)
Definition decodeMessage (encryptedString receiverPrivateKey : string) : result value :=
  try_catch
    (encryptedObject ← cipher_parse encryptedString;
     decrypted ← decryptWithPrivateKey receiverPrivateKey encryptedObject;
     decryptedPayload ← JSON_parse decrypted;
     signature ← get decryptedPayload "signature";
     message ← get decryptedPayload "message";
     senderAddress ← recoverPublicKey signature message;
     receiver ← provider_public_key receiverPrivateKey;
     message ← get decryptedPayload "message";
     Ok (VObj (<["sender" := VStr senderAddress]>
              (<["receiver" := VStr receiver]>
              (<["message" := message]> ∅)))))
    (λ error, Throw (Error "Failed to decode message.")).

End Engine.
End Messages.

(** A cipher whose decryption undoes its encryption for the key pair of the
    provider, through [stringify] and [parse]. *)
Definition cipher_sound `{Provider} `{Cipher} : Prop :=
  ∀ entropy privateKey publicKey text encryptedMessage encryptedString,
    provider_public_key privateKey = Ok publicKey →
    encryptWithPublicKey entropy publicKey text = Ok encryptedMessage →
    cipher_stringify encryptedMessage = Ok encryptedString →
    ∃ encryptedObject,
      cipher_parse encryptedString = Ok encryptedObject
      ∧ decryptWithPrivateKey privateKey encryptedObject = Ok text.

(** [JSON.parse] reads back the object [{ message, signature }] of two
    strings that [JSON.stringify] wrote. *)
Definition json_sound `{Cipher} : Prop :=
  ∀ message signature text,
    JSON_stringify (Messages.signed_payload (VStr message) (VStr signature)) = Ok text →
    JSON_parse text = Ok (Messages.signed_payload (VStr message) (VStr signature)).

(** ** A cipher and a second provider to run the definitions on *)

Module SampleCipher.

(** The string of [n] characters ['1']. *)
Fixpoint ones (n : nat) : string :=
  match n with
  | O => ""
  | S n' => String "1" (ones n')
  end.

(** The number of leading characters ['1'], and what follows the character
    after them. *)
Fixpoint split_ones (s : string) : nat * string :=
  match s with
  | EmptyString => (O, "")
  | String c rest =>
      if Ascii.eqb c "1" then
        let '(n, tail) := split_ones rest in (S n, tail)
      else (O, rest)
  end.

(** The two strings, the first one's length written in front in unary. *)
Definition stringify (v : value) : result string :=
  match v with
  | VObj m =>
      match m !! "message", m !! "signature" with
      | Some (VStr message), Some (VStr signature) =>
          Ok (ones (String.length message) ++ String "0" (message ++ signature))
      | _, _ => Throw TypeError
      end
  | _ => Throw TypeError
  end.

Definition parse (text : string) : result value :=
  let '(n, body) := split_ones text in
  Ok (Messages.signed_payload
        (VStr (substring 0 n body))
        (VStr (substring n (String.length body - n) body))).

(** A ciphertext is the receiver's public key, a bar and the plain text. *)
Definition decrypt (privateKey : string) (ciphertext : string) : result string :=
  let lock := "pk:" ++ privateKey ++ "|" in
  if startsWith ciphertext lock
  then Ok (substring (String.length lock)
             (String.length ciphertext - String.length lock) ciphertext)
  else Throw (Error "decryption failed").

#[export] Instance cipher : Cipher := {|
  encrypted := string;
  encryptWithPublicKey := λ entropy publicKey text, Ok (publicKey ++ "|" ++ text);
  cipher_stringify := λ ciphertext, Ok ciphertext;
  cipher_parse := λ ciphertext, Ok ciphertext;
  decryptWithPrivateKey := decrypt;
  JSON_stringify := stringify;
  JSON_parse := parse;
  keccak256_other := λ _, Throw TypeError
|}.

(** A provider that writes its digests without the ["0x"] prefix, as
    [CryptoJS.SHA256(...).toString(CryptoJS.enc.Hex)] of [part_003] does. *)
Definition bare_provider : Provider := {|
  provider_hash := λ message, String "f" (String.rev message);
  provider_sign := λ privateKey hash, Ok (hash ++ privateKey);
  provider_recover := Sample.recover;
  provider_public_key := λ privateKey, Ok ("pk:" ++ privateKey)
|}.

End SampleCipher.

(** A computation that throws nothing but a TypeError. *)
Definition only_TypeError {A} (r : result A) : Prop :=
  ∀ e, r = Throw e → e = TypeError.

(** * Properties *)

Lemma zeros_S d : zeros (S d) = String "0" (zeros d).
Proof.
  unfold zeros. destruct d as [|d]; [reflexivity|].
  change (List.repeat "0" (S (S d))) with ("0" :: List.repeat "0" (S d)).
  reflexivity.
Qed.

Lemma zeros_snoc d rest : String "0" (zeros d) ++ rest = zeros d ++ String "0" rest.
Proof.
  induction d as [|d IH]; [reflexivity|].
  rewrite zeros_S. change (String "0" (String "0" (zeros d) ++ rest)
                           = String "0" (zeros d ++ String "0" rest)).
  by rewrite IH.
Qed.

Lemma repeat_zeros d : repeat "0" (Z.of_nat d) = Ok (zeros d).
Proof.
  unfold repeat. destruct (Z.ltb_spec (Z.of_nat d) 0) as [Hneg|_]; [lia|].
  by rewrite Nat2Z.id.
Qed.

Lemma repeat_negative s d : d < 0 → repeat s d = Throw RangeError.
Proof. intros Hd. unfold repeat. by destruct (Z.ltb_spec d 0); [|lia]. Qed.

Lemma startsWith_zeros d hex : startsWith hex (zeros d) = true ↔ leading_zeros d hex.
Proof.
  revert hex. induction d as [|d IH]; intros hex.
  - split; [intros _ i Hi; lia | intros _; reflexivity].
  - rewrite zeros_S. destruct hex as [|c hex]; cbn [startsWith].
    + split; [discriminate|]. intros Hz. specialize (Hz O ltac:(lia)). discriminate.
    + rewrite andb_true_iff, IH, Ascii.eqb_eq. split.
      * intros [<- Hz] [|i] Hi; [reflexivity|]. simpl. apply Hz. lia.
      * intros Hz. split.
        -- specialize (Hz O ltac:(lia)). simpl in Hz. congruence.
        -- intros i Hi. apply (Hz (S i)). lia.
Qed.

Lemma leading_zeros_fewer d hex : leading_zeros (S d) hex → leading_zeros d hex.
Proof. intros Hz i Hi. apply Hz. lia. Qed.

Lemma startsWith_split s p : startsWith s p = true ↔ ∃ rest, s = p ++ rest.
Proof.
  revert s. induction p as [|c p IH]; intros s; cbn [startsWith].
  - split; [eauto | intros _; reflexivity].
  - destruct s as [|d s].
    + split; [discriminate | intros [rest Hr]; discriminate].
    + rewrite andb_true_iff, IH, Ascii.eqb_eq. split.
      * intros [<- [rest ->]]. eauto.
      * intros [rest Hr]. injection Hr as <- ->. eauto.
Qed.

Section Difficulty.
Context `{Runtime} `{Provider}.

Lemma index_difficultyverify_nat d hash :
  Index.difficultyverify (Z.of_nat d) hash = Ok (startsWith hash ("0x" ++ zeros d)).
Proof. unfold Index.difficultyverify. by rewrite repeat_zeros. Qed.

Lemma part003_difficultyverify_nat d hash :
  Part003.difficultyverify (Z.of_nat d) hash = Ok (startsWith hash (zeros d)).
Proof. unfold Part003.difficultyverify. by rewrite repeat_zeros. Qed.

Lemma index_attempt data commitAt difficulty nonce sdata ok :
  to_string data = Ok sdata →
  Index.difficultyverify difficulty
    (Index.hashMessage (sdata ++ commitAt ++ pretty nonce)) = Ok ok →
  Index.attempt data commitAt difficulty nonce
  = Ok (Index.hashMessage (sdata ++ commitAt ++ pretty nonce), negb ok).
Proof.
  intros Hs Hd. unfold Index.attempt. rewrite Hs. cbn [mbind result_bind].
  rewrite Hd. cbn [mbind result_bind]. unfold Index.is_undefined.
  by rewrite orb_false_r.
Qed.

Lemma part003_attempt data commitAt difficulty nonce sdata ok :
  to_string data = Ok sdata →
  Part003.difficultyverify difficulty
    (Part003.hashMessage (sdata ++ commitAt ++ pretty nonce)) = Ok ok →
  Part003.attempt data commitAt difficulty nonce
  = Ok (Part003.hashMessage (sdata ++ commitAt ++ pretty nonce), negb ok).
Proof.
  intros Hs Hd. unfold Part003.attempt. rewrite Hs. cbn [mbind result_bind].
  rewrite Hd. cbn [mbind result_bind]. unfold Part003.is_undefined.
  by rewrite orb_false_r.
Qed.

Lemma index_mine_first fuel data commitAt sdata :
  hex_prefixed →
  to_string data = Ok sdata →
  Index.mine (S fuel) data commitAt 0 0
  = Some (Ok (1, Index.hashMessage (sdata ++ commitAt ++ "1"))).
Proof.
  intros Hhex Hs. cbn [Index.mine].
  rewrite (index_attempt _ _ _ _ sdata true Hs); [reflexivity|].
  change 0 with (Z.of_nat 0) at 1. rewrite index_difficultyverify_nat.
  f_equal. apply Hhex.
Qed.

Lemma part003_mine_first fuel data commitAt sdata :
  to_string data = Ok sdata →
  Part003.mine (S fuel) data commitAt 0 0
  = Some (Ok (1, Part003.hashMessage (sdata ++ commitAt ++ "1"))).
Proof.
  intros Hs. cbn [Part003.mine].
  by rewrite (part003_attempt _ _ _ _ sdata true Hs).
Qed.

End Difficulty.

(** C5: the difficulty predicate of [src/index.js] (and of [part_002], which
    has the same text) holds of a digest ["0x..."] exactly when the hex digits
    after the prefix begin with [d] characters ['0'], and that of [part_003]
    when the bare hex digest does; at difficulty 0 both accept every digest,
    so the miner returns nonce 1 on its first round; a digest that passes at
    [d + 1] passes at [d]. *)
Theorem difficulty_predicate `{Runtime} `{Provider} :
  hex_prefixed →
  (∀ d hash, Part002.difficultyverify d hash = Index.difficultyverify d hash)
  ∧ (∀ (d : nat) hex,
       ∃ b, Index.difficultyverify (Z.of_nat d) ("0x" ++ hex) = Ok b
            ∧ (b = true ↔ leading_zeros d hex))
  ∧ (∀ (d : nat) hex,
       ∃ b, Part003.difficultyverify (Z.of_nat d) hex = Ok b
            ∧ (b = true ↔ leading_zeros d hex))
  ∧ (∀ message, Index.difficultyverify 0 (Index.hashMessage message) = Ok true)
  ∧ (∀ hash, Part003.difficultyverify 0 hash = Ok true)
  ∧ (∀ fuel data commitAt sdata,
       to_string data = Ok sdata →
       Index.mine (S fuel) data commitAt 0 0
       = Some (Ok (1, Index.hashMessage (sdata ++ commitAt ++ "1"))))
  ∧ (∀ fuel data commitAt sdata,
       to_string data = Ok sdata →
       Part003.mine (S fuel) data commitAt 0 0
       = Some (Ok (1, Part003.hashMessage (sdata ++ commitAt ++ "1"))))
  ∧ (∀ (d : nat) hash,
       Index.difficultyverify (Z.of_nat (S d)) hash = Ok true →
       Index.difficultyverify (Z.of_nat d) hash = Ok true)
  ∧ (∀ (d : nat) hash,
       Part003.difficultyverify (Z.of_nat (S d)) hash = Ok true →
       Part003.difficultyverify (Z.of_nat d) hash = Ok true).
Proof.
  intros Hhex. repeat apply conj.
  - reflexivity.
  - intros d hex. rewrite index_difficultyverify_nat. eexists; split; [reflexivity|].
    change (startsWith ("0x" ++ hex) ("0x" ++ zeros d)) with (startsWith hex (zeros d)).
    apply startsWith_zeros.
  - intros d hex. rewrite part003_difficultyverify_nat. eexists; split; [reflexivity|].
    apply startsWith_zeros.
  - intros message. change 0 with (Z.of_nat 0).
    rewrite index_difficultyverify_nat. f_equal. apply Hhex.
  - intros hash. reflexivity.
  - intros fuel data commitAt sdata. by apply index_mine_first.
  - intros fuel data commitAt sdata. apply part003_mine_first.
  - intros d hash. rewrite !index_difficultyverify_nat. intros Hs. f_equal.
    assert (startsWith hash ("0x" ++ zeros (S d)) = true) as Hp by congruence.
    clear Hs. apply startsWith_split in Hp as [rest ->]. apply startsWith_split.
    rewrite zeros_S. exists (String "0" rest).
    change (String "0" (String "x" (String "0" (zeros d) ++ rest))
            = String "0" (String "x" (zeros d ++ String "0" rest))).
    by rewrite zeros_snoc.
  - intros d hash. rewrite !part003_difficultyverify_nat. intros Hs. f_equal.
    assert (startsWith hash (zeros (S d)) = true) as Hp by congruence.
    apply startsWith_zeros. apply leading_zeros_fewer. by apply startsWith_zeros.
Qed.

(** ** The miner *)

Section Miner.
Context `{Runtime} `{Provider}.

Lemma index_attempt_inv data commitAt difficulty nonce messageHash again :
  Index.attempt data commitAt difficulty nonce = Ok (messageHash, again) →
  ∃ sdata ok,
    to_string data = Ok sdata
    ∧ messageHash = nonce_digest sdata commitAt nonce
    ∧ Index.difficultyverify difficulty messageHash = Ok ok
    ∧ again = negb ok.
Proof.
  unfold Index.attempt. destruct (to_string data) as [sdata|e]; [|discriminate].
  cbn [mbind result_bind].
  destruct (Index.difficultyverify _ _) as [ok|e] eqn:Hd; [|discriminate].
  cbn [mbind result_bind]. unfold Index.is_undefined. rewrite orb_false_r.
  intros [= <- <-]. by exists sdata, ok.
Qed.

(** What the loop returns passes the predicate, and every nonce it went
    through before fails it. *)
Lemma index_mine_sound fuel data commitAt difficulty start nonce messageHash :
  Index.mine fuel data commitAt difficulty start = Some (Ok (nonce, messageHash)) →
  ∃ sdata,
    to_string data = Ok sdata
    ∧ start < nonce
    ∧ messageHash = nonce_digest sdata commitAt nonce
    ∧ Index.difficultyverify difficulty messageHash = Ok true
    ∧ ∀ m, start < m < nonce →
        Index.difficultyverify difficulty (nonce_digest sdata commitAt m) = Ok false.
Proof.
  revert start. induction fuel as [|fuel IH]; intros start; [discriminate|].
  cbn [Index.mine].
  destruct (Index.attempt data commitAt difficulty (start + 1))
    as [[h again]|e] eqn:Ha; [|discriminate].
  apply index_attempt_inv in Ha as (sdata & ok & Hs & -> & Hd & ->).
  destruct ok; cbn [negb].
  - intros [= <- <-]. exists sdata. repeat split; [done|lia|done|]. intros m Hm. lia.
  - intros Hm. apply IH in Hm as (sdata' & Hs' & Hlt & -> & Hok & Hbefore).
    assert (sdata' = sdata) as -> by congruence.
    exists sdata. repeat split; [done|lia|done|].
    intros m Hm. destruct (decide (m = start + 1)) as [->|Hne]; [done|].
    apply Hbefore. lia.
Qed.

(** With a passing nonce [steps + 1] rounds ahead at the latest, [steps + 1]
    rounds of fuel are enough for the loop to return. *)
Lemma index_mine_terminates steps data commitAt difficulty start sdata :
  to_string data = Ok sdata →
  0 ≤ difficulty →
  Index.difficultyverify difficulty
    (nonce_digest sdata commitAt (start + 1 + Z.of_nat steps)) = Ok true →
  ∃ nonce,
    start < nonce ≤ start + 1 + Z.of_nat steps
    ∧ ∀ fuel, (steps < fuel)%nat →
        Index.mine fuel data commitAt difficulty start
        = Some (Ok (nonce, nonce_digest sdata commitAt nonce)).
Proof.
  intros Hs Hd. revert start. induction steps as [|steps IH]; intros start Hgoal.
  - exists (start + 1). split; [lia|]. intros [|fuel] Hf; [lia|].
    replace (start + 1 + Z.of_nat 0) with (start + 1) in Hgoal by lia.
    cbn [Index.mine]. by rewrite (index_attempt _ _ _ _ sdata true Hs).
  - assert (∃ ok, Index.difficultyverify difficulty
                    (nonce_digest sdata commitAt (start + 1)) = Ok ok) as [ok Hok].
    { unfold Index.difficultyverify, repeat.
      destruct (Z.ltb_spec difficulty 0); [lia|]. eauto. }
    destruct ok.
    + exists (start + 1). split; [lia|]. intros [|fuel] Hf; [lia|].
      cbn [Index.mine]. by rewrite (index_attempt _ _ _ _ sdata true Hs).
    + destruct (IH (start + 1)) as (nonce & Hrange & Hmine).
      { replace (start + 1 + 1 + Z.of_nat steps)
          with (start + 1 + Z.of_nat (S steps)) by lia. exact Hgoal. }
      exists nonce. split; [lia|]. intros [|fuel] Hf; [lia|].
      cbn [Index.mine]. rewrite (index_attempt _ _ _ _ sdata false Hs Hok).
      cbn [negb]. apply Hmine. lia.
Qed.

(** A negative difficulty makes the first round throw, and [createCommit]
    rethrow as its own error. *)
Lemma index_createCommit_negative fuel now privateKey data type difficulty :
  difficulty < 0 →
  Index.createCommit (S fuel) now privateKey data type difficulty
  = Some (Throw (Error "Failed to create commit.")).
Proof.
  intros Hd. unfold Index.createCommit. cbn [Index.mine].
  assert (∃ e, Index.attempt data now difficulty (0 + 1) = Throw e) as [e ->].
  { unfold Index.attempt, Index.difficultyverify.
    destruct (to_string data) as [sdata|e]; cbn [mbind result_bind]; [|eauto].
    rewrite (repeat_negative _ _ Hd). eauto. }
  reflexivity.
Qed.

(** The commit [createCommit] returns, read back from the loop's result. *)
Lemma index_createCommit_inv fuel now privateKey data type difficulty commit :
  Index.createCommit fuel now privateKey data type difficulty = Some (Ok commit) →
  ∃ nonce messageHash signature publicKey,
    Index.mine fuel data now difficulty 0 = Some (Ok (nonce, messageHash))
    ∧ Index.signMessage privateKey messageHash = Ok signature
    ∧ provider_public_key privateKey = Ok publicKey
    ∧ commit = Index.commit_object (VStr now) data (VStr publicKey)
                 (VStr signature) type (VNum nonce).
Proof.
  unfold Index.createCommit.
  destruct (Index.mine fuel data now difficulty 0) as [[[nonce h]|e]|]; [| |discriminate].
  - cbn [mbind result_bind].
    destruct (Index.signMessage privateKey h) as [signature|e] eqn:Hsig; [|discriminate].
    cbn [mbind result_bind].
    destruct (provider_public_key privateKey) as [publicKey|e] eqn:Hpk; [|discriminate].
    cbn [mbind result_bind try_catch]. intros [= <-].
    by exists nonce, h, signature, publicKey.
  - discriminate.
Qed.

End Miner.

(** C4: the nonce of a commit that [createCommit] returns is positive, its
    digest passes the difficulty predicate, and the digest of every smaller
    positive nonce, under the same payload string and timestamp, fails it;
    and whenever some positive nonce passes and the key signs, [createCommit]
    does return a commit, given enough rounds. *)
Theorem createCommit_minimal_nonce `{Runtime} `{Provider} :
  (∀ fuel now privateKey data type difficulty commit,
     Index.createCommit fuel now privateKey data type difficulty = Some (Ok commit) →
     ∃ nonce sdata,
       get commit "nonce" = Ok (VNum nonce)
       ∧ to_string data = Ok sdata
       ∧ 1 ≤ nonce
       ∧ Index.difficultyverify difficulty (nonce_digest sdata now nonce) = Ok true
       ∧ ∀ m, 1 ≤ m < nonce →
           Index.difficultyverify difficulty (nonce_digest sdata now m) = Ok false)
  ∧ (∀ now privateKey data type difficulty sdata publicKey n,
       to_string data = Ok sdata →
       0 ≤ difficulty →
       1 ≤ n →
       Index.difficultyverify difficulty (nonce_digest sdata now n) = Ok true →
       (∀ message, ∃ signature, Index.signMessage privateKey message = Ok signature) →
       provider_public_key privateKey = Ok publicKey →
       ∃ nonce commit,
         1 ≤ nonce ≤ n
         ∧ get commit "nonce" = Ok (VNum nonce)
         ∧ ∀ fuel, (Z.to_nat n ≤ fuel)%nat →
             Index.createCommit fuel now privateKey data type difficulty
             = Some (Ok commit)).
Proof.
  split.
  - intros fuel now privateKey data type difficulty commit Hc.
    apply index_createCommit_inv in Hc as (nonce & h & sig & pk & Hm & _ & _ & ->).
    apply index_mine_sound in Hm as (sdata & Hs & Hpos & -> & Hok & Hbefore).
    exists nonce, sdata. repeat split; [done|lia|done|].
    intros m Hm. apply Hbefore. lia.
  - intros now privateKey data type difficulty sdata publicKey n Hs Hd Hn Hok Hsign Hpk.
    destruct (index_mine_terminates (Z.to_nat (n - 1)) data now difficulty 0 sdata Hs Hd)
      as (nonce & Hrange & Hmine).
    { replace (0 + 1 + Z.of_nat (Z.to_nat (n - 1))) with n by lia. exact Hok. }
    destruct (Hsign (nonce_digest sdata now nonce)) as [signature Hsig].
    exists nonce, (Index.commit_object (VStr now) data (VStr publicKey)
                     (VStr signature) type (VNum nonce)).
    split; [lia|]. split; [reflexivity|].
    intros fuel Hfuel. unfold Index.createCommit.
    rewrite Hmine by lia. cbn [mbind result_bind].
    rewrite Hsig. cbn [mbind result_bind]. rewrite Hpk. reflexivity.
Qed.

(** ** Verification of an assembled commit *)

Section Verify.
Context `{Runtime} `{Provider}.

Lemma index_checkdatastructure_post data type :
  Index.checkdatastructure data type = Index.post_branch data.
Proof. reflexivity. Qed.

Lemma index_verifyObject_commit commitAt data publicKey signature type nonce :
  Index.verifyObject (Index.commit_object commitAt data publicKey signature type nonce)
  = (structure ← Index.post_branch data; Ok structure).
Proof.
  unfold Index.verifyObject.
  change (keys_length (Index.commit_object commitAt data publicKey signature type nonce))
    with (Ok 6 : result Z).
  cbn [mbind result_bind Z.eqb Pos.eqb negb].
  change (get (Index.commit_object commitAt data publicKey signature type nonce) "data")
    with (Ok data).
  change (get (Index.commit_object commitAt data publicKey signature type nonce) "type")
    with (Ok type).
  cbn [mbind result_bind]. rewrite index_checkdatastructure_post.
  destruct (Index.post_branch data) as [[]|e]; reflexivity.
Qed.

(** What is left of [verifyCommit] on an assembled commit, by the outcome of
    the payload check. *)
Lemma index_verifyCommit_commit commitAt data publicKey signature type nonce difficulty :
  Index.verifyCommit
    (Index.commit_object commitAt data publicKey signature type nonce) difficulty
  = match Index.post_branch data with
    | Throw e => Throw e
    | Ok false => Ok false
    | Ok true =>
        try_catch
          (hashedData ← Index.commit_digest data commitAt nonce;
           ok ← Index.difficultyverify difficulty hashedData;
           if negb ok then Ok false
           else
             signer ← Index.recoverPublicKey signature hashedData;
             Ok (strict_eq_string signer publicKey))
          (λ error, Ok false)
    end.
Proof.
  unfold Index.verifyCommit. rewrite index_verifyObject_commit.
  destruct (Index.post_branch data) as [[]|e]; reflexivity.
Qed.

Lemma index_commit_digest_mined data now nonce sdata :
  to_string data = Ok sdata →
  Index.commit_digest data (VStr now) (VNum nonce) = Ok (nonce_digest sdata now nonce).
Proof. intros Hs. unfold Index.commit_digest. by rewrite Hs. Qed.

(** Posts that pass the payload check do make the round trip. *)
Lemma index_roundtrip_post fuel now privateKey data type difficulty commit :
  provider_sound →
  Index.post_branch data = Ok true →
  Index.createCommit fuel now privateKey data type difficulty = Some (Ok commit) →
  Index.verifyCommit commit difficulty = Ok true.
Proof.
  intros Hsound Hpost Hc.
  apply index_createCommit_inv in Hc as (nonce & h & sig & pk & Hm & Hsig & Hpk & ->).
  apply index_mine_sound in Hm as (sdata & Hs & _ & -> & Hok & _).
  rewrite index_verifyCommit_commit, Hpost.
  rewrite (index_commit_digest_mined _ _ _ _ Hs). cbn [mbind result_bind].
  rewrite Hok. cbn [mbind result_bind negb].
  unfold Index.recoverPublicKey. unfold Index.signMessage in Hsig.
  rewrite (Hsound _ _ _ _ Hsig Hpk). cbn [mbind result_bind try_catch strict_eq_string].
  by rewrite String.eqb_refl.
Qed.

(** Whatever else a commit holds, a payload that fails the post rules makes
    [verifyCommit] answer [false]. *)
Lemma index_verifyCommit_not_post commitAt data publicKey signature type nonce difficulty :
  Index.post_branch data = Ok false →
  Index.verifyCommit
    (Index.commit_object commitAt data publicKey signature type nonce) difficulty
  = Ok false.
Proof. intros Hpost. by rewrite index_verifyCommit_commit, Hpost. Qed.

Lemma index_attempt_same_string p1 p2 commitAt difficulty nonce :
  to_string p1 = to_string p2 →
  Index.attempt p1 commitAt difficulty nonce = Index.attempt p2 commitAt difficulty nonce.
Proof. intros Hs. unfold Index.attempt. by rewrite Hs. Qed.

Lemma index_mine_same_string fuel p1 p2 commitAt difficulty start :
  to_string p1 = to_string p2 →
  Index.mine fuel p1 commitAt difficulty start = Index.mine fuel p2 commitAt difficulty start.
Proof.
  intros Hs. revert start. induction fuel as [|fuel IH]; intros start; [reflexivity|].
  cbn [Index.mine]. rewrite (index_attempt_same_string p1 p2) by done.
  destruct (Index.attempt p2 commitAt difficulty (start + 1)) as [[h []]|e];
    [apply IH|reflexivity|reflexivity].
Qed.

Lemma plain_object_string (m : gmap string value) :
  "toString" ∉ dom m → to_string (VObj m) = Ok "[object Object]".
Proof. intros Hm. cbn [to_string]. by destruct (decide _). Qed.

End Verify.

(** C10: every plain object without an own [toString] converts to
    ["[object Object]"]; two payloads that both convert so give, with the same
    [commitAt] and [nonce], the same digest in [verifyCommit]; the miner of
    [createCommit] runs the same on both, and the commits it assembles for
    them differ in the [data] field only: same nonce, signature and public
    key. *)
Theorem digest_ignores_payload `{Runtime} `{Provider} :
  (∀ m : gmap string value,
     "toString" ∉ dom m → to_string (VObj m) = Ok "[object Object]")
  ∧ ∀ p1 p2,
      to_string p1 = Ok "[object Object]" →
      to_string p2 = Ok "[object Object]" →
      (∀ commitAt nonce,
         Index.commit_digest p1 commitAt nonce = Index.commit_digest p2 commitAt nonce)
      ∧ (∀ fuel commitAt difficulty,
           Index.mine fuel p1 commitAt difficulty 0
           = Index.mine fuel p2 commitAt difficulty 0)
      ∧ (∀ fuel now privateKey type difficulty c1,
           Index.createCommit fuel now privateKey p1 type difficulty = Some (Ok c1) →
           ∃ c2,
             Index.createCommit fuel now privateKey p2 type difficulty = Some (Ok c2)
             ∧ c2 = set_field c1 "data" p2
             ∧ get c2 "nonce" = get c1 "nonce"
             ∧ get c2 "signature" = get c1 "signature"
             ∧ get c2 "publicKey" = get c1 "publicKey").
Proof.
  split; [apply plain_object_string|].
  intros p1 p2 H1 H2. assert (to_string p1 = to_string p2) as Hs by congruence.
  repeat apply conj.
  - intros commitAt nonce. unfold Index.commit_digest. by rewrite Hs.
  - intros fuel commitAt difficulty. by apply index_mine_same_string.
  - intros fuel now privateKey type difficulty c1 Hc.
    apply index_createCommit_inv in Hc as (nonce & h & sig & pk & Hm & Hsig & Hpk & ->).
    exists (Index.commit_object (VStr now) p2 (VStr pk) (VStr sig) type (VNum nonce)).
    repeat apply conj; try reflexivity.
    unfold Index.createCommit.
    rewrite <- (index_mine_same_string fuel p1 p2) by done.
    rewrite Hm. cbn [mbind result_bind]. rewrite Hsig. cbn [mbind result_bind].
    by rewrite Hpk.
Qed.

(** ** The field check of [src/index.js] *)

Section Fields.
Context `{Runtime} `{Provider}.

Lemma and_then_true a b : and_then a b = Ok true → a = Ok true ∧ b = Ok true.
Proof. unfold and_then. destruct a as [[]|e]; cbn [mbind result_bind]; by intros. Qed.

Lemma hasOwnProperty_object_true (m : gmap string value) p :
  hasOwnProperty (VObj m) p = Ok true → p ∈ dom m.
Proof.
  cbn [hasOwnProperty]. destruct (decide _); [discriminate|].
  intros [= Hp]. by apply bool_decide_eq_true in Hp.
Qed.

(** An object that [verifyObject] accepts has the six fields and no other. *)
Lemma index_verifyObject_fields (m : gmap string value) :
  Index.verifyObject (VObj m) = Ok true → dom m = commit_fields.
Proof.
  unfold Index.verifyObject. cbn [keys_length mbind result_bind].
  destruct (Z.eqb_spec (Z.of_nat (size m)) 6) as [Hsize|]; [|discriminate].
  cbn [negb get mbind result_bind].
  destruct (Index.checkdatastructure _ _) as [[]|e]; [|discriminate|discriminate].
  cbn [mbind result_bind Bool.eqb].
  destruct (and_then _ _) as [[]|e] eqn:Hall; [|discriminate|discriminate].
  intros _.
  repeat (apply and_then_true in Hall as [?%hasOwnProperty_object_true Hall]).
  apply hasOwnProperty_object_true in Hall.
  symmetry. apply set_subseteq_size_eq.
  - intros k Hk. unfold commit_fields in Hk.
    rewrite !elem_of_union, !elem_of_singleton in Hk.
    destruct Hk as [[[[[->| ->]| ->]| ->]| ->]| ->]; assumption.
  - rewrite size_dom. replace (size m) with 6%nat by lia. by vm_compute.
Qed.

(** An object with another number of fields than six is answered [false]. *)
Lemma index_verifyCommit_size (m : gmap string value) difficulty :
  size m ≠ 6%nat → Index.verifyCommit (VObj m) difficulty = Ok false.
Proof.
  intros Hsize. unfold Index.verifyCommit, Index.verifyObject.
  cbn [keys_length mbind result_bind].
  by destruct (Z.eqb_spec (Z.of_nat (size m)) 6) as [Heq|]; [lia|].
Qed.

(** An object with other fields than the six is never answered [true]. *)
Lemma index_verifyCommit_fields (m : gmap string value) difficulty :
  dom m ≠ commit_fields → Index.verifyCommit (VObj m) difficulty ≠ Ok true.
Proof.
  intros Hdom. unfold Index.verifyCommit.
  destruct (Index.verifyObject (VObj m)) as [[]|e] eqn:Hv; cbn [mbind result_bind negb];
    [|discriminate|discriminate].
  by apply index_verifyObject_fields in Hv.
Qed.

(** The hashtag loop changes nothing and cannot fail. *)
Lemma index_hashtags_forEach l st : forEach_list Index.hashtag_callback l st = Ok st.
Proof.
  induction l as [|x l IH]; [reflexivity|]. cbn [forEach_list].
  assert (∃ r, Index.hashtag_callback x st = Ok (r, st)) as [r ->].
  { destruct st. unfold Index.hashtag_callback.
    destruct x; eauto. repeat case_match; eauto. }
  exact IH.
Qed.

(** The hashtags of a post have no part in the answer. *)
Lemma index_post_branch_hashtags content l attachments parentID :
  Index.post_branch (Index.postTemplate content (VArr l) attachments parentID)
  = Index.post_branch (Index.postTemplate content (VArr []) attachments parentID).
Proof.
  unfold Index.post_branch.
  change (and_then (hasOwnProperty (Index.postTemplate content (VArr l) attachments parentID) "parent") _)
    with (Ok true : result bool).
  change (and_then (hasOwnProperty (Index.postTemplate content (VArr []) attachments parentID) "parent") _)
    with (Ok true : result bool).
  cbn [mbind result_bind].
  change (get (Index.postTemplate content (VArr l) attachments parentID) "hashtags")
    with (Ok (VArr l)).
  change (get (Index.postTemplate content (VArr []) attachments parentID) "hashtags")
    with (Ok (VArr [])).
  cbn [mbind result_bind get String.eqb Ascii.eqb Bool.eqb gt forEach].
  rewrite !index_hashtags_forEach.
  by destruct (_ >? 0), (0 >? 0).
Qed.

(** The attachment loop: [allgood] records that some element has a [type],
    [allgoodx] the parity of the [cid] and [url] properties met. *)
Lemma index_attachments_forEach l allgood allgoodx :
  Forall plain_object l →
  forEach_list Index.attachment_callback l (allgood, allgoodx)
  = Ok (allgood || existsb (λ x, has_field x "type") l,
        xorb allgoodx (Nat.odd (locator_count l))).
Proof.
  intros Hl. revert allgood allgoodx.
  induction Hl as [|x l (m & -> & Hm) _ IH]; intros allgood allgoodx.
  - cbn [forEach_list existsb locator_count Nat.odd]. cbn.
    by rewrite orb_false_r, xorb_false_r.
  - cbn [forEach_list Index.attachment_callback hasOwnProperty].
    destruct (decide ("hasOwnProperty" ∈ dom m)) as [|_]; [done|].
    cbn [mbind result_bind snd]. rewrite IH. f_equal.
    cbn [existsb locator_count has_field].
    rewrite !Nat.odd_add.
    destruct (bool_decide ("type" ∈ dom m)), (bool_decide ("cid" ∈ dom m)),
      (bool_decide ("url" ∈ dom m)), allgood, allgoodx,
      (existsb (λ x, has_field x "type") l), (Nat.odd (locator_count l));
      reflexivity.
Qed.

(** What [src/index.js] decides on a post: nothing from the hashtags, and from
    a non-empty attachment array only whether some element has a [type] and
    whether the locators are odd in number. *)
Lemma index_post_rules content hashtags attachments parentID :
  Forall plain_object attachments →
  Index.checkdatastructure
    (Index.postTemplate content (VArr hashtags) (VArr attachments) parentID) (VStr "post")
  = Ok (match attachments with
        | [] => true
        | _ => existsb (λ x, has_field x "type") attachments
               && Nat.odd (locator_count attachments)
        end).
Proof.
  intros Hplain. rewrite index_checkdatastructure_post, index_post_branch_hashtags.
  unfold Index.post_branch.
  change (and_then (hasOwnProperty (Index.postTemplate ?c ?h ?a ?p) "parent") _)
    with (Ok true : result bool).
  change (get (Index.postTemplate ?c ?h ?a ?p) "hashtags") with (Ok h).
  change (get (Index.postTemplate ?c ?h ?a ?p) "attachments") with (Ok a).
  cbn [mbind result_bind get String.eqb Ascii.eqb Bool.eqb gt forEach length].
  change (Z.of_nat 0 >? 0) with false. cbn [mbind result_bind].
  destruct attachments as [|x l]; [reflexivity|].
  replace (Z.of_nat (length (x :: l)) >? 0) with true
    by (symmetry; apply Z.gtb_lt; cbn [length]; lia).
  rewrite (index_attachments_forEach _ _ _ Hplain). cbn [mbind result_bind orb xorb].
  destruct (existsb _ _), (Nat.odd _); reflexivity.
Qed.

End Fields.

(** ** What the other copies do *)

Section Copies.
Context `{Runtime} `{Provider}.

(** [part_002] has the whole of [verifyCommit] inside the [try]: it answers
    with a boolean on every input. *)
Lemma part002_verifyCommit_total commit difficulty :
  ∃ b, Part002.verifyCommit commit difficulty = Ok b.
Proof.
  unfold Part002.verifyCommit.
  match goal with |- ∃ b, try_catch ?body _ = _ => destruct body as [b|e] end;
    cbn [try_catch]; eauto.
Qed.

Lemma strict_eq_string_false s v : v ≠ VStr s → strict_eq_string s v = false.
Proof.
  intros Hv. destruct v as [| | | |t| |]; try reflexivity. cbn [strict_eq_string].
  apply String.eqb_neq. congruence.
Qed.

(** [part_003] answers [false] under any type tag other than the three. *)
Lemma part003_unknown_type data type :
  type ≠ VStr "post" → type ≠ VStr "meta" → type ≠ VStr "message" →
  Part003.checkDataStructure data type = Ok false.
Proof.
  intros Hpost Hmeta Hmessage. unfold Part003.checkDataStructure.
  by rewrite !strict_eq_string_false.
Qed.

(** [part_003] checks a message envelope against the message rule alone. *)
Lemma part003_message_rule data :
  Part003.checkDataStructure data (VStr "message")
  = and_then (hasOwnProperty data "receiver") (hasOwnProperty data "message").
Proof. reflexivity. Qed.

Lemma part003_hashtag_ok x : Part003.hashtag_ok x = Ok (well_formed_hashtag x).
Proof. by destruct x. Qed.

Lemma part003_every_hashtag l :
  every_list Part003.hashtag_ok l = Ok (forallb well_formed_hashtag l).
Proof.
  induction l as [|x l IH]; [reflexivity|].
  cbn [every_list forallb]. rewrite part003_hashtag_ok. cbn [mbind result_bind].
  by destruct (well_formed_hashtag x).
Qed.

Lemma part003_attachment_ok x :
  plain_object x → Part003.attachment_ok x = Ok (well_formed_attachment x).
Proof.
  intros (m & -> & Hm). unfold Part003.attachment_ok, well_formed_attachment.
  unfold and_then, or_else. cbn [hasOwnProperty get mbind result_bind].
  destruct (decide ("hasOwnProperty" ∈ dom m)) as [|_]; [done|].
  cbn [mbind result_bind].
  destruct (bool_decide ("type" ∈ dom m)) eqn:Htype.
  - apply bool_decide_eq_true, elem_of_dom in Htype as [t Ht]. rewrite Ht.
    cbn [default mbind result_bind].
    destruct t as [| | | |t| |]; cbn [strict_eq_string orb andb]; try reflexivity.
    rewrite (String.eqb_sym t "image"), (String.eqb_sym t "video"),
      (String.eqb_sym t "others").
    destruct (_ || _ || _); [|reflexivity]. cbn [andb].
    by destruct (bool_decide ("cid" ∈ dom m)).
  - apply bool_decide_eq_false, not_elem_of_dom in Htype. by rewrite Htype.
Qed.

Lemma part003_every_attachment l :
  Forall plain_object l →
  every_list Part003.attachment_ok l = Ok (forallb well_formed_attachment l).
Proof.
  induction 1 as [|x l Hx _ IH]; [reflexivity|].
  cbn [every_list forallb]. rewrite (part003_attachment_ok _ Hx).
  cbn [mbind result_bind]. by destruct (well_formed_attachment x).
Qed.

(** [part_003] accepts a post exactly when every hashtag and every attachment
    is well formed. *)
Lemma part003_post_rules content hashtags attachments parentID :
  Forall plain_object attachments →
  Part003.checkDataStructure
    (Index.postTemplate content (VArr hashtags) (VArr attachments) parentID) (VStr "post")
  = Ok (forallb well_formed_hashtag hashtags
        && forallb well_formed_attachment attachments).
Proof.
  intros Hplain. unfold Part003.checkDataStructure.
  cbn [strict_eq_string String.eqb Ascii.eqb Bool.eqb].
  change (hasOwnProperty (Index.postTemplate ?c ?h ?a ?p) "parent") with (Ok true : result bool).
  change (hasOwnProperty (Index.postTemplate ?c ?h ?a ?p) "content") with (Ok true : result bool).
  change (hasOwnProperty (Index.postTemplate ?c ?h ?a ?p) "hashtags") with (Ok true : result bool).
  change (hasOwnProperty (Index.postTemplate ?c ?h ?a ?p) "attachments") with (Ok true : result bool).
  change (get (Index.postTemplate ?c ?h ?a ?p) "hashtags") with (Ok h).
  change (get (Index.postTemplate ?c ?h ?a ?p) "attachments") with (Ok a).
  unfold and_then. cbn [mbind result_bind every].
  rewrite part003_every_hashtag, (part003_every_attachment _ Hplain).
  cbn [mbind result_bind]. by destruct (forallb well_formed_hashtag hashtags).
Qed.

(** [part_003] accepts a profile exactly when every hashtag is well formed. *)
Lemma part003_meta_rules name about image website followed hashtags bookmarks :
  Part003.checkDataStructure
    (Index.metaTemplate name about image website followed (VArr hashtags) bookmarks)
    (VStr "meta")
  = Ok (forallb well_formed_hashtag hashtags).
Proof.
  unfold Part003.checkDataStructure.
  cbn [strict_eq_string String.eqb Ascii.eqb Bool.eqb].
  change (hasOwnProperty (Index.metaTemplate ?n ?a ?i ?w ?f ?h ?b) "followed") with (Ok true : result bool).
  change (hasOwnProperty (Index.metaTemplate ?n ?a ?i ?w ?f ?h ?b) "hashtags") with (Ok true : result bool).
  change (hasOwnProperty (Index.metaTemplate ?n ?a ?i ?w ?f ?h ?b) "bookmarks") with (Ok true : result bool).
  change (hasOwnProperty (Index.metaTemplate ?n ?a ?i ?w ?f ?h ?b) "name") with (Ok true : result bool).
  change (hasOwnProperty (Index.metaTemplate ?n ?a ?i ?w ?f ?h ?b) "about") with (Ok true : result bool).
  change (hasOwnProperty (Index.metaTemplate ?n ?a ?i ?w ?f ?h ?b) "image") with (Ok true : result bool).
  change (hasOwnProperty (Index.metaTemplate ?n ?a ?i ?w ?f ?h ?b) "website") with (Ok true : result bool).
  change (get (Index.metaTemplate ?n ?a ?i ?w ?f ?h ?b) "hashtags") with (Ok h).
  unfold and_then. cbn [mbind result_bind every].
  by rewrite part003_every_hashtag.
Qed.




End Copies.

(** ** Where [src/index.js] departs from the specification *)

(** C1 (code at the failing input): a commit that [createCommit] of
    [src/index.js] returns for a message envelope with the type tag
    ["message"] is rejected by [verifyCommit] at the same difficulty, because
    the payload is checked against the post rules. *)
Theorem roundtrip_rejects_message `{Runtime} `{Provider} :
  ∀ fuel now privateKey difficulty commit,
    Index.createCommit fuel now privateKey Sample.envelope (VStr "message") difficulty
    = Some (Ok commit) →
    Index.verifyCommit commit difficulty = Ok false.
Proof.
  intros fuel now privateKey difficulty commit Hc.
  apply index_createCommit_inv in Hc as (nonce & h & sig & pk & _ & _ & _ & ->).
  by apply index_verifyCommit_not_post.
Qed.

Section Tamper.
Context `{Runtime} `{Provider}.

(** Payloads that pass the post rules and print alike are interchangeable
    inside a commit. *)
Lemma index_verifyCommit_data_swap d1 d2 commitAt publicKey signature type nonce difficulty :
  to_string d1 = to_string d2 →
  Index.post_branch d1 = Ok true →
  Index.post_branch d2 = Ok true →
  Index.verifyCommit (Index.commit_object commitAt d1 publicKey signature type nonce) difficulty
  = Index.verifyCommit (Index.commit_object commitAt d2 publicKey signature type nonce) difficulty.
Proof.
  intros Hs H1 H2. rewrite !index_verifyCommit_commit, H1, H2.
  unfold Index.commit_digest. by rewrite Hs.
Qed.

(** A nonce written as a string verifies like the number. *)
Lemma index_verifyCommit_nonce_string commitAt data publicKey signature type n difficulty :
  Index.verifyCommit
    (Index.commit_object commitAt data publicKey signature type (VStr (pretty n))) difficulty
  = Index.verifyCommit
      (Index.commit_object commitAt data publicKey signature type (VNum n)) difficulty.
Proof. by rewrite !index_verifyCommit_commit. Qed.

(** A different [publicKey] is detected. *)
Lemma index_verifyCommit_publicKey_changed
    commitAt data publicKey publicKey' signature type nonce difficulty :
  Index.verifyCommit
    (Index.commit_object commitAt data publicKey signature type nonce) difficulty = Ok true →
  publicKey' ≠ publicKey →
  Index.verifyCommit
    (Index.commit_object commitAt data publicKey' signature type nonce) difficulty = Ok false.
Proof.
  rewrite !index_verifyCommit_commit.
  destruct (Index.post_branch data) as [[]|e]; [|discriminate|discriminate].
  destruct (Index.commit_digest data commitAt nonce) as [h|e]; [|discriminate].
  cbn [mbind result_bind].
  destruct (Index.difficultyverify difficulty h) as [[]|e]; [|discriminate|discriminate].
  cbn [mbind result_bind negb].
  destruct (Index.recoverPublicKey signature h) as [signer|e]; [|discriminate].
  cbn [mbind result_bind try_catch]. intros [= Heq] Hne. f_equal.
  destruct publicKey as [| | | |pk| |]; try discriminate. cbn [strict_eq_string] in Heq.
  apply String.eqb_eq in Heq as ->.
  destruct publicKey' as [| | | |pk'| |]; try reflexivity. cbn [strict_eq_string].
  apply String.eqb_neq. congruence.
Qed.

End Tamper.

(** C2 (code at the failing input): in a verifying commit that [createCommit]
    made for the post ["Hello Boy"], replacing [data] by a post with another
    content leaves [verifyCommit] answering [true]. *)
Theorem tampered_data_verifies `{Runtime} `{Provider} :
  ∀ fuel now privateKey difficulty commit,
    Index.createCommit fuel now privateKey Sample.hello_post (VStr "post") difficulty
    = Some (Ok commit) →
    Index.verifyCommit commit difficulty = Ok true →
    Sample.tampered_post ≠ Sample.hello_post
    ∧ get (set_field commit "data" Sample.tampered_post) "data" = Ok Sample.tampered_post
    ∧ Index.verifyCommit (set_field commit "data" Sample.tampered_post) difficulty = Ok true.
Proof.
  intros fuel now privateKey difficulty commit Hc Hv.
  apply index_createCommit_inv in Hc as (nonce & h & sig & pk & _ & _ & _ & ->).
  repeat apply conj; [discriminate|reflexivity|].
  rewrite <- Hv.
  change (set_field (Index.commit_object (VStr now) Sample.hello_post (VStr pk)
                       (VStr sig) (VStr "post") (VNum nonce)) "data" Sample.tampered_post)
    with (Index.commit_object (VStr now) Sample.tampered_post (VStr pk)
            (VStr sig) (VStr "post") (VNum nonce)).
  by apply index_verifyCommit_data_swap.
Qed.

(** C3 (code at the failing input): on a commit with six fields whose [data]
    is [null], whatever the other five hold, [verifyCommit] of [src/index.js]
    throws a TypeError at every difficulty: [verifyObject] runs before the
    [try]. *)
Theorem verifyCommit_throws_on_null_data `{Runtime} `{Provider} :
  (∀ commitAt publicKey signature type nonce difficulty,
     Index.verifyCommit
       (Index.commit_object commitAt VNull publicKey signature type nonce) difficulty
     = Throw TypeError)
  ∧ ∀ difficulty, Index.verifyCommit Sample.null_data_commit difficulty = Throw TypeError.
Proof. split; reflexivity. Qed.

(** C6 (code at the failing input): [checkdatastructure] of [src/index.js]
    never looks at the type tag; it accepts a well-formed post under the tag
    ["bogus"], rejects a well-formed message envelope under the tag
    ["message"], and throws on a [null] payload. *)
Theorem checkdatastructure_ignores_type `{Runtime} `{Provider} :
  (∀ data type, Index.checkdatastructure data type = Index.post_branch data)
  ∧ Index.checkdatastructure Sample.hello_post (VStr "bogus") = Ok true
  ∧ Index.checkdatastructure Sample.envelope (VStr "message") = Ok false
  ∧ Index.checkdatastructure VNull (VStr "post") = Throw TypeError.
Proof. repeat apply conj; reflexivity. Qed.

(** C7 (code at the failing input): [checkdatastructure] of [src/index.js]
    accepts a post whatever its hashtags are, and so the post whose hashtag
    is ["bad tag!"], which is not a well-formed hashtag. *)
Theorem bad_hashtag_accepted `{Runtime} `{Provider} :
  (∀ content hashtags parentID,
     Index.checkdatastructure
       (Index.postTemplate content (VArr hashtags) (VArr []) parentID) (VStr "post")
     = Ok true)
  ∧ well_formed_hashtag (VStr "bad tag!") = false
  ∧ Index.checkdatastructure Sample.bad_hashtag_post (VStr "post") = Ok true.
Proof.
  repeat apply conj; [|reflexivity|reflexivity].
  intros content hashtags parentID.
  rewrite index_checkdatastructure_post, index_post_branch_hashtags. reflexivity.
Qed.

(** C8 (code at the failing input): [checkdatastructure] of [src/index.js]
    rejects a post with two well-formed attachments, one carrying a [cid] and
    one a [url], and accepts a post whose attachment has the type ["img"],
    which is not a well-formed attachment. *)
Theorem attachments_miscounted `{Runtime} `{Provider} :
  (forallb well_formed_attachment
     [Sample.attachment "image" "cid" "Qm1";
      Sample.attachment "image" "url" "https://x/y.png"] = true
   ∧ Index.checkdatastructure Sample.two_attachments_post (VStr "post") = Ok false)
  ∧ (well_formed_attachment (Sample.attachment "img" "cid" "Qm1") = false
     ∧ Index.checkdatastructure Sample.img_attachment_post (VStr "post") = Ok true).
Proof. repeat apply conj; reflexivity. Qed.

(** C9 (code at the failing input): [verifyCommit] of [src/index.js] answers
    [false] on an object that has not six fields, and never answers [true] on
    one whose fields are not the six; but on the object with six fields that
    has [extra] in place of [data] it throws a TypeError instead of answering
    [false]. *)
Theorem verifyCommit_throws_without_data `{Runtime} `{Provider} :
  (∀ (m : gmap string value) difficulty,
     size m ≠ 6%nat → Index.verifyCommit (VObj m) difficulty = Ok false)
  ∧ (∀ (m : gmap string value) difficulty,
       dom m ≠ commit_fields → Index.verifyCommit (VObj m) difficulty ≠ Ok true)
  ∧ keys_length Sample.extra_field_commit = Ok 6
  ∧ hasOwnProperty Sample.extra_field_commit "data" = Ok false
  ∧ ∀ difficulty, Index.verifyCommit Sample.extra_field_commit difficulty = Throw TypeError.
Proof.
  repeat apply conj; try reflexivity.
  - apply index_verifyCommit_size.
  - apply index_verifyCommit_fields.
Qed.

(** ** What [verifyCommit] of [src/index.js] accepts *)

Section Acceptance.
Context `{Runtime} `{Provider}.

Lemma append_assoc (a b c : string) : (a ++ b) ++ c = a ++ (b ++ c).
Proof.
  induction a as [|x a IH]; [reflexivity|].
  change (String x ((a ++ b) ++ c) = String x (a ++ (b ++ c))). by rewrite IH.
Qed.

Lemma zeros_add a b : zeros (a + b) = zeros a ++ zeros b.
Proof.
  induction a as [|a IH]; [reflexivity|].
  change (S a + b)%nat with (S (a + b)). rewrite !zeros_S, IH. reflexivity.
Qed.

(** A digest that passes at a difficulty passes at every smaller one down
    to 0. *)
Lemma index_difficultyverify_le d d' hash :
  0 ≤ d' ≤ d →
  Index.difficultyverify d hash = Ok true →
  Index.difficultyverify d' hash = Ok true.
Proof.
  intros Hd. rewrite <- (Z2Nat.id d), <- (Z2Nat.id d') by lia.
  rewrite !index_difficultyverify_nat. intros Hp. f_equal.
  assert (startsWith hash ("0x" ++ zeros (Z.to_nat d)) = true) as Hs by congruence.
  apply startsWith_split in Hs as [rest ->]. apply startsWith_split.
  replace (Z.to_nat d) with (Z.to_nat d' + (Z.to_nat d - Z.to_nat d'))%nat by lia.
  rewrite zeros_add. exists (zeros (Z.to_nat d - Z.to_nat d') ++ rest).
  by rewrite !append_assoc.
Qed.

(** An object with the six fields and no other is the object literal of
    [createCommit] over its six values. *)
Lemma commit_object_of_fields (m : gmap string value) :
  dom m = commit_fields →
  VObj m = Index.commit_object
             (default VUndefined (m !! "commitAt")) (default VUndefined (m !! "data"))
             (default VUndefined (m !! "publicKey")) (default VUndefined (m !! "signature"))
             (default VUndefined (m !! "type")) (default VUndefined (m !! "nonce")).
Proof.
  intros Hdom. unfold Index.commit_object. f_equal. apply map_eq. intros k.
  assert (∀ f, f ∈ commit_fields → m !! f = Some (default VUndefined (m !! f))) as Hin.
  { intros f Hf. rewrite <- Hdom in Hf. by apply elem_of_dom in Hf as [v ->]. }
  destruct (decide (k ∈ commit_fields)) as [Hk|Hk].
  - rewrite (Hin k Hk). unfold commit_fields in Hk.
    rewrite !elem_of_union, !elem_of_singleton in Hk.
    destruct Hk as [[[[[->| ->]| ->]| ->]| ->]| ->]; reflexivity.
  - rewrite <- Hdom in Hk. apply not_elem_of_dom in Hk as Hnone. rewrite Hnone.
    rewrite Hdom in Hk. unfold commit_fields in Hk.
    rewrite !elem_of_union, !elem_of_singleton in Hk.
    symmetry. rewrite !lookup_insert_ne by (intros <-; tauto). done.
Qed.

(** Only objects pass [verifyObject]. *)
Lemma index_verifyObject_object commit :
  Index.verifyObject commit = Ok true → ∃ m : gmap string value, commit = VObj m.
Proof.
  destruct commit as [| |b|n|s|l|m]; try discriminate; [| |eauto].
  - unfold Index.verifyObject. cbn [keys_length mbind result_bind].
    destruct (Z.eqb_spec (strlen s) 6) as [Hlen|]; [|discriminate].
    cbn [negb get String.eqb Ascii.eqb Bool.eqb].
    replace (String.length s) with 6%nat by (unfold strlen in Hlen; lia).
    discriminate.
  - unfold Index.verifyObject. cbn [keys_length mbind result_bind].
    destruct (Z.eqb_spec (Z.of_nat (length l)) 6) as [Hlen|]; [|discriminate].
    cbn [negb get String.eqb Ascii.eqb Bool.eqb].
    replace (length l) with 6%nat by lia.
    discriminate.
Qed.

(** What an answer [true] of [verifyCommit] is made of. *)
Lemma index_verifyCommit_true_iff commit difficulty :
  Index.verifyCommit commit difficulty = Ok true ↔
  ∃ commitAt data signature type nonce hashedData signer,
    commit = Index.commit_object commitAt data (VStr signer) signature type nonce
    ∧ Index.post_branch data = Ok true
    ∧ Index.commit_digest data commitAt nonce = Ok hashedData
    ∧ Index.difficultyverify difficulty hashedData = Ok true
    ∧ Index.recoverPublicKey signature hashedData = Ok signer.
Proof.
  split.
  - intros Hv.
    assert (Index.verifyObject commit = Ok true) as Hobj.
    { unfold Index.verifyCommit in Hv.
      by destruct (Index.verifyObject commit) as [[]|e]. }
    destruct (index_verifyObject_object _ Hobj) as [m ->].
    apply index_verifyObject_fields in Hobj.
    rewrite (commit_object_of_fields m Hobj) in Hv |- *.
    revert Hv. rewrite index_verifyCommit_commit.
    destruct (Index.post_branch _) as [[]|e] eqn:Hpost; [|discriminate|discriminate].
    destruct (Index.commit_digest _ _ _) as [h|e] eqn:Hdigest; [|discriminate].
    cbn [mbind result_bind].
    destruct (Index.difficultyverify difficulty h) as [[]|e] eqn:Hd;
      [|discriminate|discriminate].
    cbn [mbind result_bind negb].
    destruct (Index.recoverPublicKey _ h) as [signer|e] eqn:Hrec; [|discriminate].
    cbn [mbind result_bind try_catch]. intros [= Heq].
    destruct (default VUndefined (m !! "publicKey")) as [| | | |pk| |];
      try discriminate.
    cbn [strict_eq_string] in Heq. apply String.eqb_eq in Heq as <-.
    by eexists _, _, _, _, _, h, signer.
  - intros (commitAt & data & signature & type & nonce & h & signer
            & -> & Hpost & Hdigest & Hd & Hrec).
    rewrite index_verifyCommit_commit, Hpost, Hdigest. cbn [mbind result_bind].
    rewrite Hd. cbn [mbind result_bind negb]. rewrite Hrec.
    cbn [mbind result_bind try_catch strict_eq_string]. by rewrite String.eqb_refl.
Qed.

End Acceptance.

(** X1: when [verifyCommit] of [src/index.js] answers [true], the commit is an
    object with the six fields and no other, its payload passes the post
    rules, the digest of its [data], [commitAt] and [nonce] passes the
    difficulty predicate, and the key recovered from its [signature] over
    that digest is the string in its [publicKey]. *)
Theorem verifyCommit_accepts_only `{Runtime} `{Provider} :
  ∀ commit difficulty,
    Index.verifyCommit commit difficulty = Ok true →
    ∃ (m : gmap string value) commitAt data signature nonce hashedData signer,
      commit = VObj m
      ∧ dom m = commit_fields
      ∧ get commit "commitAt" = Ok commitAt
      ∧ get commit "data" = Ok data
      ∧ get commit "signature" = Ok signature
      ∧ get commit "nonce" = Ok nonce
      ∧ get commit "publicKey" = Ok (VStr signer)
      ∧ Index.post_branch data = Ok true
      ∧ Index.commit_digest data commitAt nonce = Ok hashedData
      ∧ Index.difficultyverify difficulty hashedData = Ok true
      ∧ Index.recoverPublicKey signature hashedData = Ok signer.
Proof.
  intros commit difficulty Hv.
  apply index_verifyCommit_true_iff in Hv
    as (commitAt & data & signature & type & nonce & h & signer
        & -> & Hpost & Hdigest & Hd & Hrec).
  eexists _, commitAt, data, signature, nonce, h, signer.
  split; [reflexivity|]. split; [by vm_compute|].
  repeat apply conj; done.
Qed.

(** X2: a commit that [verifyCommit] of [src/index.js] accepts at a
    difficulty is accepted at every smaller difficulty down to 0, and no
    commit is accepted at a negative difficulty. *)
Theorem verifyCommit_lower_difficulty `{Runtime} `{Provider} :
  ∀ commit d,
    Index.verifyCommit commit d = Ok true →
    0 ≤ d ∧ ∀ d', 0 ≤ d' ≤ d → Index.verifyCommit commit d' = Ok true.
Proof.
  intros commit d Hv.
  apply index_verifyCommit_true_iff in Hv
    as (commitAt & data & signature & type & nonce & h & signer
        & -> & Hpost & Hdigest & Hd & Hrec).
  split.
  - destruct (Z.lt_ge_cases d 0) as [Hneg|]; [|lia].
    unfold Index.difficultyverify in Hd. by rewrite (repeat_negative _ _ Hneg) in Hd.
  - intros d' Hd'. apply index_verifyCommit_true_iff.
    eexists commitAt, data, signature, type, nonce, h, signer.
    repeat apply conj; try done. by apply (index_difficultyverify_le d).
Qed.

(** X3: a post that passes the post rules and that [createCommit] of
    [src/index.js] committed at a difficulty verifies at that difficulty and
    at every smaller one down to 0, for a provider whose recovery returns the
    signing key. *)
Theorem roundtrip_post_lower_difficulty `{Runtime} `{Provider} :
  ∀ fuel now privateKey data type d commit d',
    provider_sound →
    Index.post_branch data = Ok true →
    Index.createCommit fuel now privateKey data type d = Some (Ok commit) →
    0 ≤ d' ≤ d →
    Index.verifyCommit commit d' = Ok true.
Proof.
  intros fuel now privateKey data type d commit d' Hsound Hpost Hc Hd'.
  pose proof (index_roundtrip_post _ _ _ _ _ _ _ Hsound Hpost Hc) as Hv.
  apply index_verifyCommit_true_iff in Hv
    as (commitAt & data' & signature & type' & nonce & h & signer
        & -> & Hpost' & Hdigest & Hd & Hrec).
  apply index_verifyCommit_true_iff.
  eexists commitAt, data', signature, type', nonce, h, signer.
  repeat apply conj; try done. by apply (index_difficultyverify_le d).
Qed.

(** X4: in a commit that [verifyCommit] of [src/index.js] accepts, replacing
    [publicKey] by any other value makes it answer [false]. *)
Theorem publicKey_change_detected `{Runtime} `{Provider} :
  ∀ commit d publicKey',
    Index.verifyCommit commit d = Ok true →
    get commit "publicKey" ≠ Ok publicKey' →
    Index.verifyCommit (set_field commit "publicKey" publicKey') d = Ok false.
Proof.
  intros commit d publicKey' Hv Hne.
  apply index_verifyCommit_true_iff in Hv as Hparts.
  destruct Hparts as (commitAt & data & signature & type & nonce & h & signer
                      & -> & _).
  change (set_field (Index.commit_object commitAt data (VStr signer) signature type nonce)
            "publicKey" publicKey')
    with (Index.commit_object commitAt data publicKey' signature type nonce).
  apply (index_verifyCommit_publicKey_changed _ _ (VStr signer)); [done|].
  intros ->. by apply Hne.
Qed.

(** ** What [createCommit] of [src/index.js] returns, and when it does not *)

Section Creation.
Context `{Runtime} `{Provider}.

Lemma startsWith_longer s p q : startsWith s p = false → startsWith s (p ++ q) = false.
Proof.
  intros Hp. destruct (startsWith s (p ++ q)) eqn:Hpq; [|reflexivity].
  apply startsWith_split in Hpq as [rest ->]. rewrite append_assoc in Hp.
  assert (startsWith (p ++ q ++ rest) p = true) as Ht by (apply startsWith_split; eauto).
  congruence.
Qed.

(** With digests that do not begin with ["0x"], every round of the loop goes
    round again. *)
Lemma index_mine_unprefixed fuel data commitAt difficulty start sdata :
  (∀ message, startsWith (provider_hash message) "0x" = false) →
  to_string data = Ok sdata →
  0 ≤ difficulty →
  Index.mine fuel data commitAt difficulty start = None.
Proof.
  intros Hbare Hs Hd. revert start. induction fuel as [|fuel IH]; intros start;
    [reflexivity|].
  cbn [Index.mine]. rewrite (index_attempt _ _ _ _ sdata false Hs); [apply IH|].
  rewrite <- (Z2Nat.id difficulty) by lia. rewrite index_difficultyverify_nat.
  f_equal. apply startsWith_longer, Hbare.
Qed.

End Creation.

(** X5: a commit that [createCommit] of [src/index.js] returns has the six
    fields and no other; [commitAt] is the clock reading, [data] and [type]
    are the arguments as given, whatever they are, [publicKey] is the key the
    provider derives from the private key, [signature] is its signature of
    the mined digest, and [nonce] is a positive number. *)
Theorem createCommit_shape `{Runtime} `{Provider} :
  ∀ fuel now privateKey data type difficulty commit,
    Index.createCommit fuel now privateKey data type difficulty = Some (Ok commit) →
    ∃ (m : gmap string value) nonce sdata signature publicKey,
      commit = VObj m
      ∧ dom m = commit_fields
      ∧ get commit "commitAt" = Ok (VStr now)
      ∧ get commit "data" = Ok data
      ∧ get commit "type" = Ok type
      ∧ get commit "nonce" = Ok (VNum nonce)
      ∧ 1 ≤ nonce
      ∧ get commit "publicKey" = Ok (VStr publicKey)
      ∧ provider_public_key privateKey = Ok publicKey
      ∧ get commit "signature" = Ok (VStr signature)
      ∧ to_string data = Ok sdata
      ∧ Index.signMessage privateKey (nonce_digest sdata now nonce) = Ok signature.
Proof.
  intros fuel now privateKey data type difficulty commit Hc.
  apply index_createCommit_inv in Hc as (nonce & h & sig & pk & Hm & Hsig & Hpk & ->).
  apply index_mine_sound in Hm as (sdata & Hs & Hpos & -> & _ & _).
  eexists _, nonce, sdata, sig, pk. split; [reflexivity|]. split; [by vm_compute|].
  repeat apply conj; try done. lia.
Qed.

(** X6: with a private key the provider refuses to sign with,
    [createCommit] of [src/index.js] still runs the whole search first: it
    has no answer as long as the miner has none, and throws its error once
    the miner has found a nonce. *)
Theorem createCommit_bad_key_after_mining `{Runtime} `{Provider} :
  ∀ fuel now privateKey data type difficulty,
    (∀ hash, ∃ e, provider_sign privateKey hash = Throw e) →
    Index.createCommit fuel now privateKey data type difficulty
    = match Index.mine fuel data now difficulty 0 with
      | None => None
      | Some _ => Some (Throw (Error "Failed to create commit."))
      end.
Proof.
  intros fuel now privateKey data type difficulty Hbad. unfold Index.createCommit.
  destruct (Index.mine fuel data now difficulty 0) as [[[nonce h]|e]|];
    [|reflexivity|reflexivity].
  cbn [mbind result_bind]. unfold Index.signMessage.
  by destruct (Hbad (Index.hashMessage h)) as [e ->].
Qed.

(** X7: with a provider whose digests do not begin with ["0x"] (a bare hex
    digest, as in [part_003]), the loop of [createCommit] of [src/index.js]
    never ends, at any difficulty from 0 up: no number of rounds gives an
    answer. *)
Theorem createCommit_never_ends_unprefixed `{Runtime} `{Provider} :
  ∀ now privateKey data type difficulty sdata,
    (∀ message, startsWith (provider_hash message) "0x" = false) →
    to_string data = Ok sdata →
    0 ≤ difficulty →
    ∀ fuel, Index.createCommit fuel now privateKey data type difficulty = None.
Proof.
  intros now privateKey data type difficulty sdata Hbare Hs Hd fuel.
  unfold Index.createCommit.
  by rewrite (index_mine_unprefixed _ _ _ _ _ sdata Hbare Hs Hd).
Qed.

(** X8: [checkdatastructure] of [src/index.js] rejects every profile that
    [metaTemplate] builds, under any type tag, and so [verifyCommit] answers
    [false], at every difficulty, on every commit that [createCommit] returns
    for one. *)
Theorem metaTemplate_never_verifies `{Runtime} `{Provider} :
  ∀ name about image website followed hashtags bookmarks type,
    Index.checkdatastructure
      (Index.metaTemplate name about image website followed hashtags bookmarks) type
    = Ok false
    ∧ ∀ fuel now privateKey difficulty commit,
        Index.createCommit fuel now privateKey
          (Index.metaTemplate name about image website followed hashtags bookmarks)
          type difficulty = Some (Ok commit) →
        ∀ d, Index.verifyCommit commit d = Ok false.
Proof.
  intros name about image website followed hashtags bookmarks type.
  split; [reflexivity|].
  intros fuel now privateKey difficulty commit Hc d.
  apply index_createCommit_inv in Hc as (nonce & h & sig & pk & _ & _ & _ & ->).
  by apply index_verifyCommit_not_post.
Qed.

(** X9: on a post that [postTemplate] builds with an array of hashtags and an
    array of plain objects as attachments, [checkdatastructure] of
    [src/index.js] answers [true] when there is no attachment, and otherwise
    exactly when some attachment has a [type] property and the [cid] and
    [url] properties of all attachments together are odd in number; the
    hashtags, and the values of [type], play no part. *)
Theorem checkdatastructure_post_parity `{Runtime} `{Provider} :
  ∀ content hashtags attachments parentID type,
    Forall plain_object attachments →
    Index.checkdatastructure
      (Index.postTemplate content (VArr hashtags) (VArr attachments) parentID) type
    = Ok (match attachments with
          | [] => true
          | _ => existsb (λ x, has_field x "type") attachments
                 && Nat.odd (locator_count attachments)
          end).
Proof.
  intros content hashtags attachments parentID type Hplain.
  rewrite index_checkdatastructure_post.
  rewrite <- (index_checkdatastructure_post _ (VStr "post")).
  by apply index_post_rules.
Qed.

(** ** The exceptions of [verifyCommit] of [src/index.js] *)

Section Exceptions.
Context `{Runtime} `{Provider}.

Lemma only_TypeError_ok {A} (a : A) : only_TypeError (Ok a).
Proof. intros e. discriminate. Qed.

Lemma only_TypeError_throw {A} : only_TypeError (Throw TypeError : result A).
Proof. intros e. congruence. Qed.

Lemma only_TypeError_bind {A B} (c : result A) (f : A → result B) :
  only_TypeError c → (∀ a, only_TypeError (f a)) → only_TypeError (c ≫= f).
Proof.
  intros Hc Hf e. destruct c as [a|e']; cbn [mbind result_bind].
  - apply Hf.
  - intros [= <-]. by apply Hc.
Qed.

Lemma only_TypeError_and_then a b :
  only_TypeError a → only_TypeError b → only_TypeError (and_then a b).
Proof.
  intros Ha Hb. apply only_TypeError_bind; [done|].
  intros []; [done|apply only_TypeError_ok].
Qed.

(** Induction on values, with the elements of an array as induction
    hypotheses. *)
Lemma value_array_ind (P : value → Prop) :
  P VUndefined → P VNull → (∀ b, P (VBool b)) → (∀ n, P (VNum n)) →
  (∀ s, P (VStr s)) → (∀ l, Forall P l → P (VArr l)) → (∀ m, P (VObj m)) →
  ∀ v, P v.
Proof.
  intros Hu Hn Hb Hz Hs Ha Ho.
  refine (fix go (v : value) : P v :=
            match v with
            | VUndefined => Hu
            | VNull => Hn
            | VBool b => Hb b
            | VNum n => Hz n
            | VStr s => Hs s
            | VArr l =>
                Ha l ((fix elements (l : list value) : Forall P l :=
                         match l with
                         | [] => @List.Forall_nil _ P
                         | x :: rest => @List.Forall_cons _ P x rest (go x) (elements rest)
                         end) l)
            | VObj m => Ho m
            end).
Qed.

Lemma to_string_only_TypeError v : only_TypeError (to_string v).
Proof.
  induction v as [| |[]| | |l IH|m] using value_array_ind;
    try apply only_TypeError_ok.
  - cbn [to_string]. induction IH as [|x rest Hx _ IHrest];
      [apply only_TypeError_ok|].
    apply only_TypeError_bind.
    + destruct x; solve [apply only_TypeError_ok | exact Hx].
    + intros s. destruct rest as [|y rest]; [apply only_TypeError_ok|].
      apply only_TypeError_bind; [exact IHrest|]. intros r. apply only_TypeError_ok.
  - cbn [to_string]. destruct (decide _);
      [apply only_TypeError_throw|apply only_TypeError_ok].
Qed.

Lemma get_only_TypeError v p : only_TypeError (get v p).
Proof.
  destruct v; cbn [get]; try apply only_TypeError_throw; try apply only_TypeError_ok;
    repeat case_match; apply only_TypeError_ok.
Qed.

Lemma hasOwnProperty_only_TypeError v p : only_TypeError (hasOwnProperty v p).
Proof.
  destruct v; cbn [hasOwnProperty]; try apply only_TypeError_throw;
    try apply only_TypeError_ok.
  destruct (decide _); [apply only_TypeError_throw|apply only_TypeError_ok].
Qed.

Lemma gt_only_TypeError v n : only_TypeError (gt v n).
Proof.
  destruct v; cbn [gt]; try apply only_TypeError_ok;
    (apply only_TypeError_bind;
     [apply to_string_only_TypeError|intros s; apply only_TypeError_ok]).
Qed.

Lemma forEach_only_TypeError {S} v (callback : value → S → result (value * S)) st :
  (∀ x st, only_TypeError (callback x st)) → only_TypeError (forEach v callback st).
Proof.
  intros Hcb. destruct v as [| | | | |l|]; cbn [forEach];
    try apply only_TypeError_throw.
  revert st. induction l as [|x l IH]; intros st; cbn [forEach_list];
    [apply only_TypeError_ok|].
  apply only_TypeError_bind; [apply Hcb|]. intros r. apply IH.
Qed.

Lemma index_hashtag_callback_only_TypeError x st :
  only_TypeError (Index.hashtag_callback x st).
Proof.
  unfold Index.hashtag_callback. destruct x; try apply only_TypeError_ok.
  repeat case_match; apply only_TypeError_ok.
Qed.

Lemma index_attachment_callback_only_TypeError x st :
  only_TypeError (Index.attachment_callback x st).
Proof.
  unfold Index.attachment_callback. destruct st as [allgood allgoodx].
  repeat (apply only_TypeError_bind;
          [apply hasOwnProperty_only_TypeError|intros ?]).
  apply only_TypeError_ok.
Qed.

Lemma index_post_branch_only_TypeError data : only_TypeError (Index.post_branch data).
Proof.
  unfold Index.post_branch. apply only_TypeError_bind.
  { repeat (apply only_TypeError_and_then;
            [apply hasOwnProperty_only_TypeError|]).
    apply hasOwnProperty_only_TypeError. }
  intros []; [|apply only_TypeError_ok].
  apply only_TypeError_bind; [apply get_only_TypeError|intros hashtags].
  apply only_TypeError_bind; [apply get_only_TypeError|intros len].
  apply only_TypeError_bind; [apply gt_only_TypeError|intros some].
  apply only_TypeError_bind.
  { destruct some; [|apply only_TypeError_ok].
    apply forEach_only_TypeError, index_hashtag_callback_only_TypeError. }
  intros _.
  apply only_TypeError_bind; [apply get_only_TypeError|intros attachments].
  apply only_TypeError_bind; [apply get_only_TypeError|intros len'].
  apply only_TypeError_bind; [apply gt_only_TypeError|intros some'].
  destruct some'; [|apply only_TypeError_ok].
  apply only_TypeError_bind.
  { apply forEach_only_TypeError, index_attachment_callback_only_TypeError. }
  intros [allgood allgoodx]. destruct (_ || _); apply only_TypeError_ok.
Qed.

Lemma index_verifyObject_only_TypeError commit :
  only_TypeError (Index.verifyObject commit).
Proof.
  unfold Index.verifyObject. apply only_TypeError_bind.
  { destruct commit; cbn [keys_length];
      solve [apply only_TypeError_throw | apply only_TypeError_ok]. }
  intros n. destruct (negb _); [apply only_TypeError_ok|].
  apply only_TypeError_bind; [apply get_only_TypeError|intros data].
  apply only_TypeError_bind; [apply get_only_TypeError|intros type].
  apply only_TypeError_bind.
  { rewrite index_checkdatastructure_post. apply index_post_branch_only_TypeError. }
  intros structure. destruct (Bool.eqb _ _); [apply only_TypeError_ok|].
  apply only_TypeError_bind.
  { repeat (apply only_TypeError_and_then;
            [apply hasOwnProperty_only_TypeError|]).
    apply hasOwnProperty_only_TypeError. }
  intros []; apply only_TypeError_ok.
Qed.

End Exceptions.

(** X10: whatever [verifyCommit] of [src/index.js] throws is a TypeError
    that [verifyObject] threw before the [try]; nothing thrown by the
    conversion to a string, the difficulty check or the provider's recovery
    gets out, and once [verifyObject] has answered, [verifyCommit] answers
    with a boolean. *)
Theorem verifyCommit_throws_only_from_verifyObject `{Runtime} `{Provider} :
  ∀ commit difficulty,
    (∀ e, Index.verifyCommit commit difficulty = Throw e →
          e = TypeError ∧ Index.verifyObject commit = Throw TypeError)
    ∧ (∀ valid, Index.verifyObject commit = Ok valid →
          ∃ b, Index.verifyCommit commit difficulty = Ok b).
Proof.
  intros commit difficulty. unfold Index.verifyCommit.
  destruct (Index.verifyObject commit) as [valid|e'] eqn:Hobj; cbn [mbind result_bind].
  - assert (∃ b, (if negb valid then Ok false
                  else try_catch
                         (data ← get commit "data";
                          commitAt ← get commit "commitAt";
                          nonce ← get commit "nonce";
                          hashedData ← Index.commit_digest data commitAt nonce;
                          ok ← Index.difficultyverify difficulty hashedData;
                          if negb ok then Ok false
                          else
                            signature ← get commit "signature";
                            signer ← Index.recoverPublicKey signature hashedData;
                            publicKey ← get commit "publicKey";
                            Ok (strict_eq_string signer publicKey))
                         (λ error, Ok false)) = Ok b) as [b Hb].
    { destruct valid; cbn [negb]; [|eauto].
      match goal with |- ∃ b, try_catch ?body _ = _ => destruct body end;
        cbn [try_catch]; eauto. }
    rewrite Hb. split; [discriminate|eauto].
  - split; [|discriminate]. intros e [= <-].
    assert (e' = TypeError) as -> by (by apply (index_verifyObject_only_TypeError commit)).
    done.
Qed.

(** ** More on the other copies *)

Section MoreCopies.
Context `{Runtime} `{Provider}.

Lemma get_insert_other (m : gmap string value) k v p :
  p ≠ k → get (VObj (<[k := v]> m)) p = get (VObj m) p.
Proof. intros Hp. cbn [get]. by rewrite lookup_insert_ne. Qed.

Lemma hasOwnProperty_insert_other (m : gmap string value) k v p :
  k ≠ "hasOwnProperty" → p ≠ k →
  hasOwnProperty (VObj (<[k := v]> m)) p = hasOwnProperty (VObj m) p.
Proof.
  intros Hk Hp. cbn [hasOwnProperty]. rewrite dom_insert_L.
  assert (∀ q, q ≠ k → q ∈ ({[k]} ∪ dom m : gset string) ↔ q ∈ dom m) as Hin.
  { intros q Hq. rewrite elem_of_union, elem_of_singleton. tauto. }
  destruct (decide ("hasOwnProperty" ∈ {[k]} ∪ dom m)) as [Hi|Hi],
           (decide ("hasOwnProperty" ∈ dom m)) as [Hd|Hd];
    try reflexivity; try (apply Hin in Hi; [done|congruence]).
  - exfalso. apply Hi, Hin; [congruence|done].
  - f_equal. apply bool_decide_ext, Hin, Hp.
Qed.

(** [part_003] does not look at a field beyond the six. *)
Lemma part003_verifyCommit_insert_other (m : gmap string value) k v difficulty :
  k ∉ commit_fields → k ≠ "hasOwnProperty" →
  Part003.verifyCommit (VObj (<[k := v]> m)) difficulty
  = Part003.verifyCommit (VObj m) difficulty.
Proof.
  intros Hk Hown. unfold commit_fields in Hk.
  rewrite !elem_of_union, !elem_of_singleton in Hk.
  unfold Part003.verifyCommit, Part003.verifyObject, Part003.requiredProperties.
  cbn [Part003.has_required].
  rewrite !hasOwnProperty_insert_other by (done || (intros <-; tauto)).
  rewrite !get_insert_other by (intros <-; tauto).
  reflexivity.
Qed.

(** What [src/index.js] accepts, [part_002] accepts. *)
Lemma index_accepts_part002_accepts commit difficulty :
  Index.verifyCommit commit difficulty = Ok true →
  Part002.verifyCommit commit difficulty = Ok true.
Proof.
  intros Hv. apply index_verifyCommit_true_iff in Hv
    as (commitAt & data & signature & type & nonce & h & signer
        & -> & _ & Hdigest & Hd & Hrec).
  unfold Index.commit_digest in Hdigest.
  destruct (to_string data) as [sdata|e] eqn:Hs1; [|discriminate].
  cbn [mbind result_bind] in Hdigest.
  destruct (to_string commitAt) as [scommitAt|e] eqn:Hs2; [|discriminate].
  cbn [mbind result_bind] in Hdigest.
  destruct (to_string nonce) as [snonce|e] eqn:Hs3; [|discriminate].
  cbn [mbind result_bind] in Hdigest. injection Hdigest as <-.
  unfold Part002.verifyCommit.
  change (get (Index.commit_object ?c ?d ?p ?s ?t ?n) "data") with (Ok d).
  change (get (Index.commit_object ?c ?d ?p ?s ?t ?n) "commitAt") with (Ok c).
  change (get (Index.commit_object ?c ?d ?p ?s ?t ?n) "nonce") with (Ok n).
  change (get (Index.commit_object ?c ?d ?p ?s ?t ?n) "signature") with (Ok s).
  change (get (Index.commit_object ?c ?d ?p ?s ?t ?n) "publicKey") with (Ok p).
  cbn [mbind result_bind]. rewrite Hs1. cbn [mbind result_bind].
  rewrite Hs2. cbn [mbind result_bind]. rewrite Hs3. cbn [mbind result_bind].
  change (Part002.difficultyverify difficulty
            (Part002.hashMessage (sdata ++ scommitAt ++ snonce)))
    with (Index.difficultyverify difficulty
            (Index.hashMessage (sdata ++ scommitAt ++ snonce))).
  rewrite Hd. cbn [mbind result_bind negb].
  change (Part002.recoverPublicKey signature
            (Part002.hashMessage (sdata ++ scommitAt ++ snonce)))
    with (Index.recoverPublicKey signature
            (Index.hashMessage (sdata ++ scommitAt ++ snonce))).
  rewrite Hrec. cbn [mbind result_bind try_catch strict_eq_string].
  by rewrite String.eqb_refl.
Qed.

End MoreCopies.

(** X11: [checkDataStructure] of [part_003] accepts a post that
    [postTemplate] builds, with plain objects as attachments, exactly when
    every hashtag is a string of at most 32 letters and digits and every
    attachment has a type among [image], [video] and [others] and a [cid] or
    a [url]; and a profile that [metaTemplate] builds exactly when every
    hashtag is such a string. *)
Theorem part003_schema_rules `{Runtime} `{Provider} :
  (∀ content hashtags attachments parentID,
     Forall plain_object attachments →
     Part003.checkDataStructure
       (Index.postTemplate content (VArr hashtags) (VArr attachments) parentID)
       (VStr "post")
     = Ok (forallb well_formed_hashtag hashtags
           && forallb well_formed_attachment attachments))
  ∧ (∀ name about image website followed hashtags bookmarks,
       Part003.checkDataStructure
         (Index.metaTemplate name about image website followed (VArr hashtags) bookmarks)
         (VStr "meta")
       = Ok (forallb well_formed_hashtag hashtags)).
Proof.
  split.
  - intros content hashtags attachments parentID Hplain. by apply part003_post_rules.
  - intros name about image website followed hashtags bookmarks.
    apply part003_meta_rules.
Qed.


(** X13: [verifyCommit] of [part_003] gives the same answer on a commit and
    on the commit with one more field, under any name but [hasOwnProperty]
    and the six: it does not require that the six fields be the only ones. *)
Theorem part003_ignores_extra_field `{Runtime} `{Provider} :
  ∀ commit field v difficulty,
    field ∉ commit_fields →
    field ≠ "hasOwnProperty" →
    Part003.verifyCommit (set_field commit field v) difficulty
    = Part003.verifyCommit commit difficulty.
Proof.
  intros commit field v difficulty Hfield Hown.
  destruct commit; try reflexivity. cbn [set_field].
  by apply part003_verifyCommit_insert_other.
Qed.

(** X14: [verifyCommit] of [part_002] answers with a boolean on every
    input and never throws; and it accepts every commit that [verifyCommit]
    of [src/index.js] accepts. *)
Theorem part002_total_and_weaker `{Runtime} `{Provider} :
  ∀ commit difficulty,
    (∃ b, Part002.verifyCommit commit difficulty = Ok b)
    ∧ (Index.verifyCommit commit difficulty = Ok true →
       Part002.verifyCommit commit difficulty = Ok true).
Proof.
  intros commit difficulty. split.
  - apply part002_verifyCommit_total.
  - apply index_accepts_part002_accepts.
Qed.

(** X15: [checkDataStructure] of [part_003] answers [false] under every type
    tag other than ["post"], ["meta"] and ["message"], whatever the payload,
    [null] and [undefined] included; under each of the three tags it throws
    a TypeError on a [null] or [undefined] payload, and so does
    [verifyCommit] on a commit that carries one. *)
Theorem part003_type_tags `{Runtime} `{Provider} :
  (∀ data type,
     type ≠ VStr "post" → type ≠ VStr "meta" → type ≠ VStr "message" →
     Part003.checkDataStructure data type = Ok false)
  ∧ (∀ data type,
       data = VNull ∨ data = VUndefined →
       type = "post" ∨ type = "meta" ∨ type = "message" →
       Part003.checkDataStructure data (VStr type) = Throw TypeError
       ∧ ∀ commitAt publicKey signature nonce difficulty,
           Part003.verifyCommit
             (Part003.commit_object commitAt data publicKey signature (VStr type) nonce)
             difficulty
           = Throw TypeError).
Proof.
  split; [apply part003_unknown_type|].
  intros data type [-> | ->] [-> | [-> | ->]]; split; reflexivity.
Qed.

(** ** Signed and encrypted messages *)

Section Envelopes.
Context `{Runtime} `{Provider} `{Cipher}.

(** What [encodeMessage] returns, read back from its steps. *)
Lemma encodeMessage_inv entropy message senderPrivateKey receiverPublicKey envelope :
  Messages.encodeMessage entropy message senderPrivateKey receiverPublicKey = Ok envelope →
  ∃ signature text encryptedMessage encryptedString,
    Index.signMessage senderPrivateKey message = Ok signature
    ∧ JSON_stringify (Messages.signed_payload (VStr message) (VStr signature)) = Ok text
    ∧ encryptWithPublicKey entropy receiverPublicKey text = Ok encryptedMessage
    ∧ cipher_stringify encryptedMessage = Ok encryptedString
    ∧ envelope = VObj (<["receiver" := VStr receiverPublicKey]>
                      (<["message" := VStr encryptedString]> ∅)).
Proof.
  unfold Messages.encodeMessage.
  destruct (Index.signMessage _ _) as [signature|e] eqn:Hsig; [|discriminate].
  cbn [mbind result_bind].
  destruct (JSON_stringify _) as [text|e] eqn:Htext; [|discriminate].
  cbn [mbind result_bind].
  destruct (encryptWithPublicKey _ _ _) as [enc|e] eqn:Henc; [|discriminate].
  cbn [mbind result_bind].
  destruct (cipher_stringify _) as [es|e] eqn:Hes; [|discriminate].
  cbn [mbind result_bind try_catch]. intros [= <-].
  by exists signature, text, enc, es.
Qed.

End Envelopes.

(** X16: what [encodeMessage] of [src/index.js] returns carries the
    receiver's public key and a string that [decodeMessage], given the
    receiver's private key, turns back into the message, together with the
    sender's public key and the receiver's: for a provider whose recovery
    returns the signing key, a cipher whose decryption undoes its encryption
    and a JSON parser that reads back what was written. *)
Theorem message_roundtrip `{Provider} `{Cipher} :
  ∀ entropy message senderPrivateKey senderPublicKey
    receiverPrivateKey receiverPublicKey envelope,
    provider_sound → cipher_sound → json_sound →
    provider_public_key senderPrivateKey = Ok senderPublicKey →
    provider_public_key receiverPrivateKey = Ok receiverPublicKey →
    Messages.encodeMessage entropy message senderPrivateKey receiverPublicKey
    = Ok envelope →
    ∃ encryptedString,
      get envelope "receiver" = Ok (VStr receiverPublicKey)
      ∧ get envelope "message" = Ok (VStr encryptedString)
      ∧ Messages.decodeMessage encryptedString receiverPrivateKey
        = Ok (VObj (<["sender" := VStr senderPublicKey]>
                   (<["receiver" := VStr receiverPublicKey]>
                   (<["message" := VStr message]> ∅)))).
Proof.
  intros entropy message skS pkS skR pkR envelope Hsound Hcipher Hjson HpkS HpkR Henc.
  unfold Messages.encodeMessage in Henc.
  destruct (Index.signMessage skS message) as [signature|e] eqn:Hsig; [|discriminate].
  cbn [mbind result_bind] in Henc.
  destruct (JSON_stringify _) as [text|e] eqn:Htext; [|discriminate].
  cbn [mbind result_bind] in Henc.
  destruct (encryptWithPublicKey entropy pkR text) as [enc|e] eqn:Hencrypt; [|discriminate].
  cbn [mbind result_bind] in Henc.
  destruct (cipher_stringify enc) as [es|e] eqn:Hes; [|discriminate].
  cbn [mbind result_bind try_catch] in Henc. injection Henc as <-.
  exists es. split; [reflexivity|]. split; [reflexivity|].
  destruct (Hcipher _ _ _ _ _ _ HpkR Hencrypt Hes) as (obj & Hparse & Hdecrypt).
  unfold Messages.decodeMessage. rewrite Hparse. cbn [mbind result_bind].
  rewrite Hdecrypt. cbn [mbind result_bind]. rewrite (Hjson _ _ _ Htext).
  cbn [mbind result_bind].
  change (get (Messages.signed_payload ?m ?s) "signature") with (Ok s).
  change (get (Messages.signed_payload ?m ?s) "message") with (Ok m).
  cbn [mbind result_bind Messages.recoverPublicKey Messages.hashMessage].
  unfold Index.signMessage in Hsig. rewrite (Hsound _ _ _ _ Hsig HpkS).
  cbn [mbind result_bind]. rewrite HpkR. reflexivity.
Qed.

(** X17: what [encodeMessage] of [src/index.js] returns has the two fields
    of a message envelope, and [checkDataStructure] of [part_003] accepts it
    under the tag ["message"]; but [checkdatastructure] of [src/index.js]
    rejects it under every tag, and [verifyCommit] of [src/index.js] answers
    [false], at every difficulty, on every commit that [createCommit] returns
    for it. *)
Theorem envelope_never_verifies `{Runtime} `{Provider} `{Cipher} :
  ∀ entropy message senderPrivateKey receiverPublicKey envelope,
    Messages.encodeMessage entropy message senderPrivateKey receiverPublicKey
    = Ok envelope →
    Part003.checkDataStructure envelope (VStr "message") = Ok true
    ∧ (∀ type, Index.checkdatastructure envelope type = Ok false)
    ∧ ∀ fuel now privateKey type difficulty commit,
        Index.createCommit fuel now privateKey envelope type difficulty
        = Some (Ok commit) →
        ∀ d, Index.verifyCommit commit d = Ok false.
Proof.
  intros entropy message senderPrivateKey receiverPublicKey envelope Henc.
  apply encodeMessage_inv in Henc as (sig & text & enc & es & _ & _ & _ & _ & ->).
  repeat apply conj; [reflexivity|reflexivity|].
  intros fuel now privateKey type difficulty commit Hc d.
  apply index_createCommit_inv in Hc as (nonce & h & sig' & pk & _ & _ & _ & ->).
  by apply index_verifyCommit_not_post.
Qed.


(** ** The theorems at work on the sample provider *)

Import Sample.

Lemma sample_hex_prefixed : @hex_prefixed Sample.provider.
Proof. intros message. reflexivity. Defined.

Lemma difficulty_predicate_witness :
  @hex_prefixed Sample.provider
  ∧ Index.difficultyverify 0 (Index.hashMessage "abc") = Ok true.
Proof.
  split; [exact sample_hex_prefixed|].
  apply (@difficulty_predicate Sample.runtime Sample.provider sample_hex_prefixed).
Defined.

Lemma sample_signs privateKey :
  privateKey ≠ "" → ∀ message, ∃ signature, Index.signMessage privateKey message = Ok signature.
Proof.
  intros Hkey message. unfold Index.signMessage. cbn [provider_sign provider].
  destruct (String.eqb_spec privateKey ""); [done|eauto].
Defined.

Lemma createCommit_minimal_nonce_witness :
  (∃ commit,
     Index.createCommit 10 Sample.now "alice" Sample.hello_post (VStr "post") 1
     = Some (Ok commit)
     ∧ ∃ nonce sdata,
         get commit "nonce" = Ok (VNum nonce)
         ∧ to_string Sample.hello_post = Ok sdata
         ∧ 1 ≤ nonce
         ∧ Index.difficultyverify 1 (nonce_digest sdata Sample.now nonce) = Ok true
         ∧ ∀ m, 1 ≤ m < nonce →
             Index.difficultyverify 1 (nonce_digest sdata Sample.now m) = Ok false)
  ∧ (∃ nonce commit,
       1 ≤ nonce ≤ 20
       ∧ get commit "nonce" = Ok (VNum nonce)
       ∧ ∀ fuel, (Z.to_nat 20 ≤ fuel)%nat →
           Index.createCommit fuel Sample.now "alice" Sample.hello_post (VStr "post") 1
           = Some (Ok commit)).
Proof.
  split.
  - eexists. split; [reflexivity|].
    apply (proj1 (@createCommit_minimal_nonce Sample.runtime Sample.provider)
             10%nat Sample.now "alice" Sample.hello_post (VStr "post") 1).
    reflexivity.
  - apply (proj2 (@createCommit_minimal_nonce Sample.runtime Sample.provider)
             Sample.now "alice" Sample.hello_post (VStr "post") 1
             "[object Object]" "pk:alice" 20).
    + reflexivity.
    + lia.
    + lia.
    + reflexivity.
    + apply sample_signs. discriminate.
    + reflexivity.
Defined.

Lemma digest_ignores_payload_witness :
  to_string Sample.hello_post = Ok "[object Object]"
  ∧ to_string Sample.tampered_post = Ok "[object Object]"
  ∧ Index.commit_digest Sample.hello_post (VStr Sample.now) (VNum 10)
    = Index.commit_digest Sample.tampered_post (VStr Sample.now) (VNum 10).
Proof.
  split; [reflexivity|]. split; [reflexivity|].
  apply (proj2 (@digest_ignores_payload Sample.runtime Sample.provider)
           Sample.hello_post Sample.tampered_post); reflexivity.
Defined.

Lemma roundtrip_rejects_message_witness :
  ∃ commit,
    Index.createCommit 1 Sample.now "alice" Sample.envelope (VStr "message") 0
    = Some (Ok commit)
    ∧ Index.verifyCommit commit 0 = Ok false.
Proof.
  eexists. split; [reflexivity|].
  apply (@roundtrip_rejects_message Sample.runtime Sample.provider
           1%nat Sample.now "alice" 0).
  reflexivity.
Defined.

Lemma tampered_data_verifies_witness :
  ∃ commit,
    Index.createCommit 10 Sample.now "alice" Sample.hello_post (VStr "post") 1
    = Some (Ok commit)
    ∧ Index.verifyCommit commit 1 = Ok true
    ∧ Index.verifyCommit (set_field commit "data" Sample.tampered_post) 1 = Ok true.
Proof.
  eexists. split; [reflexivity|]. split; [reflexivity|].
  apply (@tampered_data_verifies Sample.runtime Sample.provider
           10%nat Sample.now "alice" 1); reflexivity.
Defined.

Lemma verifyCommit_throws_without_data_witness :
  size (∅ : gmap string value) ≠ 6%nat
  ∧ Index.verifyCommit (VObj ∅) 3 = Ok false.
Proof.
  split; [by vm_compute|].
  apply (proj1 (@verifyCommit_throws_without_data Sample.runtime Sample.provider)).
  by vm_compute.
Defined.

(** ** The further properties at work on the sample provider and cipher *)

Import SampleCipher.

Lemma substring_all s : substring 0 (String.length s) s = s.
Proof. induction s as [|c s IH]; [reflexivity|]. cbn [substring String.length]. by rewrite IH. Qed.

Lemma substring_take a b : substring 0 (String.length a) (a ++ b) = a.
Proof.
  induction a as [|c a IH]; [by destruct b|].
  change (String c (substring 0 (String.length a) (a ++ b)) = String c a). by rewrite IH.
Qed.

Lemma substring_skip a b :
  substring (String.length a) (String.length (a ++ b) - String.length a) (a ++ b) = b.
Proof.
  induction a as [|c a IH].
  - change (substring 0 (String.length b - 0) b = b).
    rewrite Nat.sub_0_r. apply substring_all.
  - exact IH.
Qed.

Lemma startsWith_append p rest : startsWith (p ++ rest) p = true.
Proof. apply startsWith_split. eauto. Qed.

Lemma sample_provider_sound : @provider_sound Sample.provider.
Proof.
  intros privateKey hash signature publicKey Hsig Hpk.
  cbn [provider_sign provider_public_key Sample.provider] in Hsig, Hpk.
  destruct (String.eqb privateKey ""); [discriminate|].
  injection Hsig as <-. injection Hpk as <-.
  cbn [provider_recover Sample.provider Sample.recover].
  by rewrite startsWith_append, substring_skip.
Qed.

Lemma sample_cipher_sound : @cipher_sound Sample.provider SampleCipher.cipher.
Proof.
  intros entropy privateKey publicKey text enc es Hpk Henc Hes.
  cbn [provider_public_key Sample.provider] in Hpk.
  destruct (String.eqb privateKey ""); [discriminate|]. injection Hpk as <-.
  cbn [encryptWithPublicKey cipher_stringify SampleCipher.cipher] in Henc, Hes.
  injection Henc as <-. injection Hes as <-.
  eexists. split; [reflexivity|].
  cbn [decryptWithPrivateKey SampleCipher.cipher]. unfold SampleCipher.decrypt.
  replace (("pk:" ++ privateKey) ++ "|" ++ text)
    with (("pk:" ++ privateKey ++ "|") ++ text)
    by (change (String "p" (String "k" (String ":" ((privateKey ++ "|") ++ text)))
                = String "p" (String "k" (String ":" (privateKey ++ "|" ++ text))));
        by rewrite append_assoc).
  by rewrite startsWith_append, substring_skip.
Qed.

Lemma split_ones_ones n rest :
  SampleCipher.split_ones (SampleCipher.ones n ++ String "0" rest) = (n, rest).
Proof.
  induction n as [|n IH]; [reflexivity|].
  change (SampleCipher.split_ones
            (String "1" (SampleCipher.ones n ++ String "0" rest)) = (S n, rest)).
  cbn [SampleCipher.split_ones]. rewrite Ascii.eqb_refl. by rewrite IH.
Qed.

Lemma sample_json_sound : @json_sound SampleCipher.cipher.
Proof.
  intros message signature text Htext.
  change (Ok (SampleCipher.ones (String.length message)
              ++ String "0" (message ++ signature)) = Ok text) in Htext.
  injection Htext as <-.
  cbn [JSON_parse SampleCipher.cipher]. unfold SampleCipher.parse.
  by rewrite split_ones_ones, substring_take, substring_skip.
Qed.

Lemma sample_attachment_plain :
  Forall plain_object [Sample.attachment "image" "cid" "Qm1"].
Proof.
  constructor; [|constructor]. eexists. split; [reflexivity|].
  intros Hin. vm_compute in Hin. discriminate.
Defined.

Lemma verifyCommit_accepts_only_witness :
  ∃ commit,
    Index.createCommit 10 Sample.now "alice" Sample.hello_post (VStr "post") 1
    = Some (Ok commit)
    ∧ ∃ (m : gmap string value) commitAt data signature nonce hashedData signer,
        commit = VObj m
        ∧ dom m = commit_fields
        ∧ get commit "commitAt" = Ok commitAt
        ∧ get commit "data" = Ok data
        ∧ get commit "signature" = Ok signature
        ∧ get commit "nonce" = Ok nonce
        ∧ get commit "publicKey" = Ok (VStr signer)
        ∧ Index.post_branch data = Ok true
        ∧ Index.commit_digest data commitAt nonce = Ok hashedData
        ∧ Index.difficultyverify 1 hashedData = Ok true
        ∧ Index.recoverPublicKey signature hashedData = Ok signer.
Proof.
  eexists. split; [reflexivity|].
  apply (@verifyCommit_accepts_only Sample.runtime Sample.provider). reflexivity.
Defined.

Lemma verifyCommit_lower_difficulty_witness :
  ∃ commit,
    Index.createCommit 10 Sample.now "alice" Sample.hello_post (VStr "post") 1
    = Some (Ok commit)
    ∧ 0 ≤ 1
    ∧ ∀ d', 0 ≤ d' ≤ 1 → Index.verifyCommit commit d' = Ok true.
Proof.
  eexists. split; [reflexivity|].
  apply (@verifyCommit_lower_difficulty Sample.runtime Sample.provider). reflexivity.
Defined.

Lemma roundtrip_post_lower_difficulty_witness :
  ∃ commit,
    Index.createCommit 10 Sample.now "alice" Sample.hello_post (VStr "post") 1
    = Some (Ok commit)
    ∧ Index.verifyCommit commit 0 = Ok true.
Proof.
  eexists. split; [reflexivity|].
  apply (@roundtrip_post_lower_difficulty Sample.runtime Sample.provider
           10%nat Sample.now "alice" Sample.hello_post (VStr "post") 1).
  - exact sample_provider_sound.
  - reflexivity.
  - reflexivity.
  - lia.
Defined.

Lemma publicKey_change_detected_witness :
  ∃ commit,
    Index.createCommit 10 Sample.now "alice" Sample.hello_post (VStr "post") 1
    = Some (Ok commit)
    ∧ Index.verifyCommit (set_field commit "publicKey" (VStr "pk:mallory")) 1 = Ok false.
Proof.
  eexists. split; [reflexivity|].
  apply (@publicKey_change_detected Sample.runtime Sample.provider).
  - reflexivity.
  - vm_compute. discriminate.
Defined.

Lemma createCommit_shape_witness :
  ∃ commit (m : gmap string value) nonce sdata signature publicKey,
    Index.createCommit 10 Sample.now "alice" Sample.hello_post (VStr "post") 1
    = Some (Ok commit)
    ∧ commit = VObj m
    ∧ dom m = commit_fields
    ∧ get commit "commitAt" = Ok (VStr Sample.now)
    ∧ get commit "data" = Ok Sample.hello_post
    ∧ get commit "type" = Ok (VStr "post")
    ∧ get commit "nonce" = Ok (VNum nonce)
    ∧ 1 ≤ nonce
    ∧ get commit "publicKey" = Ok (VStr publicKey)
    ∧ provider_public_key "alice" = Ok publicKey
    ∧ get commit "signature" = Ok (VStr signature)
    ∧ to_string Sample.hello_post = Ok sdata
    ∧ Index.signMessage "alice" (nonce_digest sdata Sample.now nonce) = Ok signature.
Proof.
  destruct (@createCommit_shape Sample.runtime Sample.provider
              10%nat Sample.now "alice" Sample.hello_post (VStr "post") 1 _ eq_refl)
    as (m & nonce & sdata & signature & publicKey & Hshape).
  by eexists _, m, nonce, sdata, signature, publicKey.
Defined.

Lemma createCommit_bad_key_after_mining_witness :
  (∀ hash, ∃ e, provider_sign "" hash = Throw e)
  ∧ Index.createCommit 5 Sample.now "" Sample.hello_post (VStr "post") 1 = None
  ∧ Index.createCommit 10 Sample.now "" Sample.hello_post (VStr "post") 1
    = Some (Throw (Error "Failed to create commit.")).
Proof.
  assert (∀ hash, ∃ e, provider_sign "" hash = Throw e) as Hbad
    by (intros hash; eexists; reflexivity).
  split; [exact Hbad|]. split.
  - rewrite (@createCommit_bad_key_after_mining Sample.runtime Sample.provider
               5%nat Sample.now "" Sample.hello_post (VStr "post") 1 Hbad).
    reflexivity.
  - rewrite (@createCommit_bad_key_after_mining Sample.runtime Sample.provider
               10%nat Sample.now "" Sample.hello_post (VStr "post") 1 Hbad).
    reflexivity.
Defined.

Lemma createCommit_never_ends_unprefixed_witness :
  @Index.createCommit SampleCipher.bare_provider 1000 Sample.now "alice"
    Sample.hello_post (VStr "post") 0 = None.
Proof.
  apply (@createCommit_never_ends_unprefixed Sample.runtime SampleCipher.bare_provider
           Sample.now "alice" Sample.hello_post (VStr "post") 0 "[object Object]").
  - intros message. reflexivity.
  - reflexivity.
  - lia.
Defined.

Lemma metaTemplate_never_verifies_witness :
  ∃ commit,
    Index.createCommit 1 Sample.now "alice"
      (Index.metaTemplate (VStr "Test User") (VStr "about") (VStr "image") (VStr "site")
         (VArr []) (VArr [VStr "test"]) (VArr []))
      (VStr "meta") 0 = Some (Ok commit)
    ∧ Index.verifyCommit commit 0 = Ok false.
Proof.
  eexists. split; [reflexivity|].
  apply (proj2 (@metaTemplate_never_verifies Sample.runtime Sample.provider
                  (VStr "Test User") (VStr "about") (VStr "image") (VStr "site")
                  (VArr []) (VArr [VStr "test"]) (VArr []) (VStr "meta"))
           1%nat Sample.now "alice" 0).
  reflexivity.
Defined.

Lemma checkdatastructure_post_parity_witness :
  Index.checkdatastructure
    (Index.postTemplate (VStr "x") (VArr [VStr "bad tag!"])
       (VArr [Sample.attachment "image" "cid" "Qm1"]) VNull) (VStr "post")
  = Ok true.
Proof.
  rewrite (@checkdatastructure_post_parity Sample.runtime Sample.provider
             (VStr "x") [VStr "bad tag!"] [Sample.attachment "image" "cid" "Qm1"]
             VNull (VStr "post") sample_attachment_plain).
  reflexivity.
Defined.

Lemma verifyCommit_throws_only_from_verifyObject_witness :
  Index.verifyCommit Sample.null_data_commit 3 = Throw TypeError
  ∧ Index.verifyObject Sample.null_data_commit = Throw TypeError.
Proof.
  split; [reflexivity|].
  apply (proj1 (@verifyCommit_throws_only_from_verifyObject Sample.runtime Sample.provider
                  Sample.null_data_commit 3) TypeError).
  reflexivity.
Defined.

Lemma part003_schema_rules_witness :
  Part003.checkDataStructure
    (Index.postTemplate (VStr "x") (VArr [VStr "bad tag!"])
       (VArr [Sample.attachment "image" "cid" "Qm1"]) VNull) (VStr "post")
  = Ok false.
Proof.
  rewrite (proj1 (@part003_schema_rules Sample.runtime Sample.provider)
             (VStr "x") [VStr "bad tag!"] [Sample.attachment "image" "cid" "Qm1"]
             VNull sample_attachment_plain).
  reflexivity.
Defined.


Lemma part003_ignores_extra_field_witness :
  ∃ commit,
    Part003.createCommit 1 Sample.now "alice" Sample.envelope (VStr "message") 1
    = Some (Ok commit)
    ∧ Part003.verifyCommit (set_field commit "extra" (VNum 1)) 1
      = Part003.verifyCommit commit 1.
Proof.
  eexists. split; [reflexivity|].
  apply (@part003_ignores_extra_field Sample.runtime Sample.provider).
  - intros Hin. vm_compute in Hin. discriminate.
  - discriminate.
Defined.

Lemma part002_total_and_weaker_witness :
  ∃ commit,
    Index.createCommit 10 Sample.now "alice" Sample.hello_post (VStr "post") 1
    = Some (Ok commit)
    ∧ Part002.verifyCommit commit 1 = Ok true.
Proof.
  eexists. split; [reflexivity|].
  apply (proj2 (@part002_total_and_weaker Sample.runtime Sample.provider _ 1)).
  reflexivity.
Defined.

Lemma part003_type_tags_witness :
  Part003.checkDataStructure VNull (VStr "bogus") = Ok false
  ∧ Part003.checkDataStructure VNull (VStr "post") = Throw TypeError.
Proof.
  split.
  - apply (proj1 (@part003_type_tags Sample.runtime Sample.provider));
      discriminate.
  - apply (proj2 (@part003_type_tags Sample.runtime Sample.provider) VNull "post").
    + by left.
    + by left.
Defined.

Lemma message_roundtrip_witness :
  ∃ envelope encryptedString,
    Messages.encodeMessage "seed" "Hello Bob" "alice" "pk:bob" = Ok envelope
    ∧ get envelope "receiver" = Ok (VStr "pk:bob")
    ∧ get envelope "message" = Ok (VStr encryptedString)
    ∧ Messages.decodeMessage encryptedString "bob"
      = Ok (VObj (<["sender" := VStr "pk:alice"]>
                 (<["receiver" := VStr "pk:bob"]>
                 (<["message" := VStr "Hello Bob"]> ∅)))).
Proof.
  destruct (@message_roundtrip Sample.provider SampleCipher.cipher
              "seed" "Hello Bob" "alice" "pk:alice" "bob" "pk:bob" _
              sample_provider_sound sample_cipher_sound sample_json_sound
              eq_refl eq_refl eq_refl)
    as (encryptedString & Hreceiver & Hmessage & Hdecode).
  by eexists _, encryptedString.
Defined.

Lemma envelope_never_verifies_witness :
  ∃ envelope commit,
    Messages.encodeMessage "seed" "Hello Bob" "alice" "pk:bob" = Ok envelope
    ∧ Part003.checkDataStructure envelope (VStr "message") = Ok true
    ∧ Index.createCommit 1 Sample.now "alice" envelope (VStr "message") 0
      = Some (Ok commit)
    ∧ Index.verifyCommit commit 0 = Ok false.
Proof.
  eexists _, _. split; [reflexivity|].
  pose proof (@envelope_never_verifies Sample.runtime Sample.provider SampleCipher.cipher
                "seed" "Hello Bob" "alice" "pk:bob" _ eq_refl)
    as (Hmessage & _ & Hverify).
  split; [exact Hmessage|]. split; [reflexivity|].
  apply (Hverify 1%nat Sample.now "alice" (VStr "message") 0). reflexivity.
Defined.

